(** * xmlrunner.result: the XML test-result listener

    A shallow embedding of [src/xmlrunner/result.py] (class [XMLTestResult])
    together with the parts of its collaborators that the listener relies on:
    the XML context builder ([xmlrunner/builder.py], which is not part of the
    sources at hand and is modelled from the specification), the
    [unittest.result.TestResult] base class, and the few operating-system
    services used when the report is written. *)

From Stdlib Require Import String Ascii List Bool Arith Lia.
From Stdlib Require Import DecimalString DecimalNat.
From stdpp Require Import base option list strings gmap.
Import ListNotations.
#[local] Set Warnings "-register-all".
Local Open Scope string_scope.
Local Open Scope list_scope.

(** ** Python values used by the listener *)

Module Py.

(** Exceptions that the modelled code can raise. *)
Inductive exn : Type :=
| IndexError          (* [seq[0]] on an empty sequence *)
| AttributeError      (* attribute access on [None] *)
| FormatError         (* [str.format] rejected the template *)
| StackUnderflow      (* builder: [end_context] without an open context *)
| MalformedStack      (* builder: [finish] with nested contexts still open *)
| NoOpenContext       (* builder: leaf appended while nothing is open *)
| Unsupported.        (* a construct outside the modelled fragment *)

Inductive result (A : Type) : Type :=
| Ok (a : A)
| Raise (e : exn).
Arguments Ok {A} a.
Arguments Raise {A} e.

(** Truth value of a [str]: the empty string is false. *)
Definition truthy (s : string) : bool := negb (String.eqb s "").

(** Truth value of an optional [str] ([None] or [''] are false). *)
Definition truthy_opt (o : option string) : bool :=
  match o with Some s => truthy s | None => false end.

(** Line boundaries of [str.splitlines] among the code points below 256,
    which are the ones a [string] holds here: LF, VT, FF, CR, FS, GS, RS and
    NEL.  (U+2028 and U+2029 lie outside that range.) *)
Definition is_linebreak (c : ascii) : bool :=
  let n := nat_of_ascii c in
  Nat.eqb n 10 || Nat.eqb n 11 || Nat.eqb n 12 || Nat.eqb n 13 ||
  Nat.eqb n 28 || Nat.eqb n 29 || Nat.eqb n 30 || Nat.eqb n 133.

Definition is_cr (c : ascii) : bool := Nat.eqb (nat_of_ascii c) 13.
Definition is_lf (c : ascii) : bool := Nat.eqb (nat_of_ascii c) 10.

(** [splitlines_go after_cr line s]: [line] is the part of the current line
    read so far, [after_cr] tells that the previous character was a CR, so
    that a LF coming next belongs to the same boundary. *)
Fixpoint splitlines_go (after_cr : bool) (line s : string) : list string :=
  match s with
  | EmptyString => if truthy line then [line] else []
  | String c rest =>
      if after_cr && is_lf c then splitlines_go false line rest
      else if is_linebreak c then line :: splitlines_go (is_cr c) "" rest
      else splitlines_go false (line +:+ String c "") rest
  end.

(** [s.splitlines()] *)
Definition splitlines (s : string) : list string := splitlines_go false "" s.

(** [seq[0]] *)
Definition item0 {A} (l : list A) : result A :=
  match l with
  | x :: _ => Ok x
  | [] => Raise IndexError
  end.

(** A keyword-argument dictionary: keys in insertion order; assigning to a
    key that is present keeps its position. *)
Definition dict := list (string * string).

Fixpoint dict_set (k v : string) (d : dict) : dict :=
  match d with
  | [] => [(k, v)]
  | (k', v') :: d' =>
      if String.eqb k k' then (k, v) :: d' else (k', v') :: dict_set k v d'
  end.

End Py.
Export Py.

(** ** The XML context builder *)

Module Builder.

(** Modelled from the spec: [xmlrunner/builder.py] is missing from the
    sources.  A child of a context is either a leaf record (tag, optional
    CDATA text, attributes in insertion order) or a context that has been
    closed (tag, name, counters, ordered children). *)
Inductive node : Type :=
| Leaf (tag : string) (cdata : option string) (attrs : dict)
| Element (tag name : string) (counters : gmap string nat)
          (children : list node).

(** Modelled from the spec: the missing builder's open context, a node under
    construction with its tag, name, named counters and ordered children. *)
Record Context : Type := mkContext {
  ctx_tag : string;
  ctx_name : string;
  ctx_counters : gmap string nat;
  ctx_children : list node
}.

(** Modelled from the spec: the missing builder's state, the stack of open
    contexts (innermost first) and the finished document once the root
    context has been closed. *)
Record XMLContextBuilder : Type := mkBuilder {
  stack : list Context;
  document : option node
}.

(** Modelled from the spec: the counters of the missing builder that every
    context carries from its creation, all at zero (a context with no
    failures still shows [failures="0"]). *)
Definition zero_counters : gmap string nat :=
  <["tests" := 0]> (<["errors" := 0]> (<["failures" := 0]>
    (<["skipped" := 0]> ∅))).

(** Modelled from the spec: the missing builder's initial state, nothing
    open and nothing finished. *)
Definition new_builder : XMLContextBuilder := mkBuilder [] None.

(** Modelled from the spec: value of a counter of the missing builder,
    zero when it was never created. *)
Definition counter (m : gmap string nat) (name : string) : nat :=
  default 0 (m !! name).

(** Modelled from the spec: the missing [begin_context(tag, name)] pushes a
    new open context with zero-valued counters. *)
Definition begin_context (tag name : string) (b : XMLContextBuilder)
  : result XMLContextBuilder :=
  Ok (mkBuilder (mkContext tag name zero_counters [] :: stack b) (document b)).

(** Modelled from the spec: the missing [context_tag()] returns the tag of
    the top-of-stack context, or the empty string when nothing is open. *)
Definition context_tag (b : XMLContextBuilder) : string :=
  match stack b with
  | c :: _ => ctx_tag c
  | [] => ""
  end.

(** Modelled from the spec: one step of the missing [increment_counter] on
    one context; the counter is created at zero first if absent. *)
Definition bump (name : string) (c : Context) : Context :=
  mkContext (ctx_tag c) (ctx_name c)
            (<[name := S (counter (ctx_counters c) name)]> (ctx_counters c))
            (ctx_children c).

(** Modelled from the spec: the missing [increment_counter(name)] adds one
    to [name] on the top context and on every context on the stack. *)
Definition increment_counter (name : string) (b : XMLContextBuilder)
  : result XMLContextBuilder :=
  Ok (mkBuilder (map (bump name) (stack b)) (document b)).

(** Modelled from the spec: the missing builder adds a child at the end of
    the children of a context. *)
Definition add_child (n : node) (c : Context) : Context :=
  mkContext (ctx_tag c) (ctx_name c) (ctx_counters c)
            (ctx_children c ++ [n])%list.

(** Modelled from the spec: the CDATA body kept by the missing [append],
    present only if the given text is non-empty. *)
Definition cdata_body (cdata : option string) : option string :=
  match cdata with
  | Some s => if truthy s then Some s else None
  | None => None
  end.

(** Modelled from the spec: the missing [append(tag, cdata, **attributes)]
    adds a leaf child to the top context; structural misuse (nothing open)
    is not swallowed. *)
Definition append (tag : string) (cdata : option string) (attrs : dict)
    (b : XMLContextBuilder) : result XMLContextBuilder :=
  match stack b with
  | c :: rest =>
      Ok (mkBuilder (add_child (Leaf tag (cdata_body cdata) attrs) c :: rest)
                    (document b))
  | [] => Raise NoOpenContext
  end.

(** Modelled from the spec: the missing [append_cdata_section(tag, text)],
    a leaf with only a CDATA body and no attributes. *)
Definition append_cdata_section (tag text : string) (b : XMLContextBuilder)
  : result XMLContextBuilder :=
  append tag (Some text) [] b.

(** Modelled from the spec: the missing builder turns a context into the
    immutable child record it becomes when closed. *)
Definition close (c : Context) : node :=
  Element (ctx_tag c) (ctx_name c) (ctx_counters c) (ctx_children c).

(** Modelled from the spec: the missing [end_context()] pops the top
    context and appends it, closed, to the new top of the stack (the root
    becomes the finished document); on an empty stack it fails with an
    underflow error. *)
Definition end_context (b : XMLContextBuilder) : result XMLContextBuilder :=
  match stack b with
  | c :: parent :: rest =>
      Ok (mkBuilder (add_child (close c) parent :: rest) (document b))
  | [c] => Ok (mkBuilder [] (Some (close c)))
  | [] => Raise StackUnderflow
  end.

(** Modelled from the spec: the missing [finish()] requires the stack to
    hold exactly the root context, still open or already closed; it closes
    the root if still open and returns the document.  The document is kept
    as a tree: its rendering as text is left to the builder. *)
Definition finish (b : XMLContextBuilder)
  : result (node * XMLContextBuilder) :=
  match stack b, document b with
  | [root], _ => Ok (close root, mkBuilder [] (Some (close root)))
  | [], Some doc => Ok (doc, b)
  | _, _ => Raise MalformedStack
  end.

(** The calls the listener makes on its builder, as data. *)
Inductive call : Type :=
| BeginContext (tag name : string)
| EndContext
| IncrementCounter (name : string)
| Append (tag : string) (cdata : option string) (attrs : dict)
| AppendCdataSection (tag text : string)
| Finish.

(** Children and counters of a closed context. *)
Definition node_children (n : node) : list node :=
  match n with Leaf _ _ _ => [] | Element _ _ _ ch => ch end.

Definition node_counters (n : node) : gmap string nat :=
  match n with Leaf _ _ _ => ∅ | Element _ _ cs _ => cs end.

End Builder.
Export Builder.

(** ** Built-in services: [str.format], [time.strftime] *)

Module Builtins.

Definition is_digit (c : ascii) : bool :=
  let n := nat_of_ascii c in Nat.leb 48 n && Nat.leb n 57.

Fixpoint all_digits (s : string) : bool :=
  match s with
  | EmptyString => true
  | String c rest => is_digit c && all_digits rest
  end.

(** Value of a string of decimal digits, most significant first. *)
Fixpoint digits_value (acc : nat) (s : string) : nat :=
  match s with
  | EmptyString => acc
  | String c rest => digits_value (10 * acc + (nat_of_ascii c - 48)) rest
  end.

(** Does a replacement field use a conversion, a format specification, an
    attribute or an index? *)
Fixpoint has_field_syntax (s : string) : bool :=
  match s with
  | EmptyString => false
  | String c rest =>
      Ascii.eqb c "!" || Ascii.eqb c ":" || Ascii.eqb c "." || Ascii.eqb c "["
      || has_field_syntax rest
  end.

(** How the replacement fields seen so far were numbered. *)
Inductive numbering : Type :=
| Unnumbered
| Automatic (next : nat)
| Manual.

(** The argument a replacement field stands for, and the numbering mode
    afterwards.  Fields other than [{}] and [{N}] with a str argument are
    outside the fragment of [str.format] that is modelled. *)
Definition resolve_field (mode : numbering) (field : string)
    (args : list string) : result (string * numbering) :=
  if String.eqb field "" then
    match mode with
    | Manual => Raise FormatError
    | Unnumbered =>
        match nth_error args 0 with
        | Some v => Ok (v, Automatic 1)
        | None => Raise IndexError
        end
    | Automatic n =>
        match nth_error args n with
        | Some v => Ok (v, Automatic (S n))
        | None => Raise IndexError
        end
    end
  else if all_digits field then
    match mode with
    | Automatic _ => Raise FormatError
    | _ =>
        match nth_error args (digits_value 0 field) with
        | Some v => Ok (v, Manual)
        | None => Raise IndexError
        end
    end
  else if has_field_syntax field then Raise Unsupported
  else Raise FormatError.

(** [format_go mode field args s]: [field] is [Some f] while inside a
    replacement field whose text so far is [f]. *)
Fixpoint format_go (mode : numbering) (field : option string)
    (args : list string) (s : string) : result string :=
  match field, s with
  | None, EmptyString => Ok ""
  | Some _, EmptyString => Raise FormatError
  | None, String c rest =>
      if Ascii.eqb c "{" then
        match rest with
        | String c' rest' =>
            if Ascii.eqb c' "{" then
              match format_go mode None args rest' with
              | Ok r => Ok (String "{" r)
              | Raise e => Raise e
              end
            else format_go mode (Some "") args rest
        | EmptyString => Raise FormatError
        end
      else if Ascii.eqb c "}" then
        match rest with
        | String c' rest' =>
            if Ascii.eqb c' "}" then
              match format_go mode None args rest' with
              | Ok r => Ok (String "}" r)
              | Raise e => Raise e
              end
            else Raise FormatError
        | EmptyString => Raise FormatError
        end
      else
        match format_go mode None args rest with
        | Ok r => Ok (String c r)
        | Raise e => Raise e
        end
  | Some f, String c rest =>
      if Ascii.eqb c "}" then
        match resolve_field mode f args with
        | Ok (v, mode') =>
            match format_go mode' None args rest with
            | Ok r => Ok (v +:+ r)
            | Raise e => Raise e
            end
        | Raise e => Raise e
        end
      else if Ascii.eqb c "{" then Raise Unsupported
      else format_go mode (Some (f +:+ String c "")) args rest
  end.

(** [template.format( *args )] for str arguments. *)
Definition str_format (template : string) (args : list string)
  : result string :=
  format_go Unnumbered None args template.

(** The fields of [time.struct_time] read by the directives below. *)
Record struct_time : Type := mkTime {
  tm_year : nat;
  tm_mon : nat;
  tm_mday : nat;
  tm_hour : nat;
  tm_min : nat;
  tm_sec : nat
}.

Definition decimal (n : nat) : string :=
  NilEmpty.string_of_uint (Nat.to_uint n).

(** A number as two decimal digits at least. *)
Definition pad2 (n : nat) : string :=
  if Nat.ltb n 10 then "0" +:+ decimal n else decimal n.

(** One directive of [strftime]; an unknown directive is left as it is. *)
Definition directive (d : ascii) (t : struct_time) : string :=
  if Ascii.eqb d "Y" then decimal (tm_year t)
  else if Ascii.eqb d "m" then pad2 (tm_mon t)
  else if Ascii.eqb d "d" then pad2 (tm_mday t)
  else if Ascii.eqb d "H" then pad2 (tm_hour t)
  else if Ascii.eqb d "M" then pad2 (tm_min t)
  else if Ascii.eqb d "S" then pad2 (tm_sec t)
  else String "%" (String d "").

(** [time.strftime(fmt, t)] *)
Fixpoint strftime (fmt : string) (t : struct_time) : string :=
  match fmt with
  | EmptyString => ""
  | String c rest =>
      if Ascii.eqb c "%" then
        match rest with
        | String d rest' => directive d t +:+ strftime rest' t
        | EmptyString => "%"
        end
      else String c (strftime rest t)
  end.

End Builtins.
Export Builtins.

(** ** The [unittest] side: tests, exception records, the base result *)

Module Unittest.

(** What the listener reads of a test instance: the module and qualified
    name of its class, its method name, and the value returned by
    [shortDescription()] ([None] when the test has no docstring). *)
Record TestCase : Type := mkTest {
  cls_module : string;
  cls_qualname : string;
  _testMethodName : string;
  shortDescription : option string
}.

(** [util.strclass(cls)], that is ["%s.%s" % (module, qualname)]. *)
Definition strclass (test : TestCase) : string :=
  cls_module test +:+ "." +:+ cls_qualname test.

(** An [(exctype, value, traceback)] triple, through what is read of it:
    [exctype.__name__], [str(value)] and the traceback frames. *)
Record exc_info : Type := mkExc {
  exctype_name : string;
  value_str : string;
  exc_traceback : list string
}.

(** The state of [unittest.result.TestResult] that matters here.  The
    buffers are [None] until the first test starts; [redirected] tells that
    [sys.stdout] and [sys.stderr] currently are the two buffers. *)
Record TestResult : Type := mkBase {
  buffer : bool;
  testsRun : nat;
  _mirrorOutput : bool;
  _stdout_buffer : option string;
  _stderr_buffer : option string;
  redirected : bool;
  errors : list (TestCase * string);
  failures : list (TestCase * string);
  skipped : list (TestCase * string);
  unexpectedSuccesses : list TestCase
}.

(** [TestResult.__init__]: the stream, descriptions and verbosity arguments
    are accepted and not used. *)
Definition base_init (stream : option nat) (descriptions : option bool)
    (verbosity : option nat) : TestResult :=
  mkBase false 0 false None None false [] [] [] [].

Definition with_buffer (v : bool) (r : TestResult) : TestResult :=
  mkBase v (testsRun r) (_mirrorOutput r) (_stdout_buffer r)
         (_stderr_buffer r) (redirected r) (errors r) (failures r)
         (skipped r) (unexpectedSuccesses r).

(** [TestResult._setupStdout] *)
Definition _setupStdout (r : TestResult) : TestResult :=
  if buffer r then
    let out := match _stderr_buffer r with
               | None => Some "" | Some _ => _stdout_buffer r end in
    let err := match _stderr_buffer r with
               | None => Some "" | Some e => Some e end in
    mkBase (buffer r) (testsRun r) (_mirrorOutput r) out err true
           (errors r) (failures r) (skipped r) (unexpectedSuccesses r)
  else r.

(** [TestResult.startTest] *)
Definition base_startTest (r : TestResult) : TestResult :=
  _setupStdout
    (mkBase (buffer r) (S (testsRun r)) false (_stdout_buffer r)
            (_stderr_buffer r) (redirected r) (errors r) (failures r)
            (skipped r) (unexpectedSuccesses r)).

(** [TestResult._restoreStdout]: the standard streams are restored and both
    buffers are emptied ([seek(0)] then [truncate()]).  Copying the output to
    the original streams when [_mirrorOutput] is set is not represented. *)
Definition _restoreStdout (r : TestResult) : result TestResult :=
  if buffer r then
    match _stdout_buffer r, _stderr_buffer r with
    | Some _, Some _ =>
        Ok (mkBase (buffer r) (testsRun r) (_mirrorOutput r) (Some "")
                   (Some "") false (errors r) (failures r) (skipped r)
                   (unexpectedSuccesses r))
    | _, _ => Raise AttributeError
    end
  else Ok r.

(** [TestResult.stopTest] *)
Definition base_stopTest (r : TestResult) : result TestResult :=
  match _restoreStdout r with
  | Ok r' =>
      Ok (mkBase (buffer r') (testsRun r') false (_stdout_buffer r')
                 (_stderr_buffer r') (redirected r') (errors r')
                 (failures r') (skipped r') (unexpectedSuccesses r'))
  | Raise e => Raise e
  end.

(** [TestResult.addSkip] *)
Definition base_addSkip (test : TestCase) (reason : string)
    (r : TestResult) : TestResult :=
  mkBase (buffer r) (testsRun r) (_mirrorOutput r) (_stdout_buffer r)
         (_stderr_buffer r) (redirected r) (errors r) (failures r)
         (skipped r ++ [(test, reason)])%list (unexpectedSuccesses r).

(** [TestResult.addError], given the formatted traceback. *)
Definition base_addError (test : TestCase) (text : string)
    (r : TestResult) : TestResult :=
  mkBase (buffer r) (testsRun r) true (_stdout_buffer r)
         (_stderr_buffer r) (redirected r)
         (errors r ++ [(test, text)])%list (failures r)
         (skipped r) (unexpectedSuccesses r).

(** [TestResult.addFailure], given the formatted traceback. *)
Definition base_addFailure (test : TestCase) (text : string)
    (r : TestResult) : TestResult :=
  mkBase (buffer r) (testsRun r) true (_stdout_buffer r)
         (_stderr_buffer r) (redirected r) (errors r)
         (failures r ++ [(test, text)])%list
         (skipped r) (unexpectedSuccesses r).

(** [TestResult.addUnexpectedSuccess] *)
Definition base_addUnexpectedSuccess (test : TestCase)
    (r : TestResult) : TestResult :=
  mkBase (buffer r) (testsRun r) (_mirrorOutput r) (_stdout_buffer r)
         (_stderr_buffer r) (redirected r) (errors r) (failures r)
         (skipped r) (unexpectedSuccesses r ++ [test])%list.

(** The running test writes [text] to [sys.stdout]: it lands in the buffer
    while the streams are redirected, and goes elsewhere otherwise. *)
Definition write_stdout (text : string) (r : TestResult) : TestResult :=
  if redirected r then
    mkBase (buffer r) (testsRun r) (_mirrorOutput r)
           (option_map (fun b => b +:+ text) (_stdout_buffer r))
           (_stderr_buffer r) (redirected r) (errors r) (failures r)
           (skipped r) (unexpectedSuccesses r)
  else r.

(** The running test writes [text] to [sys.stderr]. *)
Definition write_stderr (text : string) (r : TestResult) : TestResult :=
  if redirected r then
    mkBase (buffer r) (testsRun r) (_mirrorOutput r) (_stdout_buffer r)
           (option_map (fun b => b +:+ text) (_stderr_buffer r))
           (redirected r) (errors r) (failures r)
           (skipped r) (unexpectedSuccesses r)
  else r.

End Unittest.
Export Unittest.

(** ** The operating system: directories, files and open streams *)

Module OS.

(** Directories that exist, the contents of the files that exist, and the
    contents of the open writable streams.  What is written is a document
    of the builder; a content is the sequence of the documents written.
    Input/output failures are not represented: they would propagate to the
    caller of the run stop. *)
Record os_state : Type := mkOS {
  sep : string;
  dirs : gset string;
  files : gmap string (list node);
  streams : gmap nat (list node)
}.

(** [os.path.exists(path)] *)
Definition path_exists (path : string) (os : os_state) : bool :=
  bool_decide (path ∈ dirs os) || bool_decide (is_Some (files os !! path)).

(** [os.makedirs(path)] *)
Definition makedirs (path : string) (os : os_state) : os_state :=
  mkOS (sep os) ({[ path ]} ∪ dirs os) (files os) (streams os).

(** [open(filename, 'w')]: the file is created, or emptied if it exists. *)
Definition open_w (filename : string) (os : os_state) : os_state :=
  mkOS (sep os) (dirs os) (<[filename := []]> (files os)) (streams os).

(** [f.write(doc)] on a file opened by name. *)
Definition file_write (filename : string) (doc : node) (os : os_state)
  : os_state :=
  mkOS (sep os) (dirs os)
       (<[filename := (default [] (files os !! filename) ++ [doc])%list]>
          (files os))
       (streams os).

(** [stream.write(doc)] on a stream that was handed over already open. *)
Definition stream_write (handle : nat) (doc : node) (os : os_state)
  : os_state :=
  mkOS (sep os) (dirs os) (files os)
       (<[handle := (default [] (streams os !! handle) ++ [doc])%list]>
          (streams os)).

End OS.
Export OS.

(** ** The listener: class [XMLTestResult] *)

Module Listener.

(** The configured output target [out_dir]: a directory path ([str]) or an
    already-open writable stream. *)
Inductive target : Type :=
| Directory (path : string)
| Stream (handle : nat).

(** The attributes of an [XMLTestResult]: those of the base class, the
    builder, [_last_suite], [out_dir] and [out_suffix].  [calls] is not an
    attribute of the object: it records, in order, every mutating call
    made on the builder. *)
Record XMLTestResult : Type := mkResult {
  base : TestResult;
  _builder : XMLContextBuilder;
  calls : list call;
  _last_suite : option string;
  out_dir : target;
  out_suffix : string
}.

(** A method body: it updates the object and returns a value or raises.
    What was changed before an exception is raised stays changed. *)
Definition M (A : Type) : Type := XMLTestResult -> XMLTestResult * result A.

#[global] Instance M_ret : MRet M := fun A a self => (self, Ok a).

#[global] Instance M_bind : MBind M := fun A B k m self =>
  match m self with
  | (self', Ok a) => k a self'
  | (self', Raise e) => (self', Raise e)
  end.

Definition get : M XMLTestResult := fun self => (self, Ok self).

Definition lift {A} (r : result A) : M A := fun self => (self, r).

(** A method of the base class that cannot fail. *)
Definition super (f : TestResult -> TestResult) : M unit := fun self =>
  (mkResult (f (base self)) (_builder self) (calls self) (_last_suite self)
            (out_dir self) (out_suffix self), Ok tt).

(** A method of the base class that can raise. *)
Definition super_try (f : TestResult -> result TestResult) : M unit :=
  fun self =>
    match f (base self) with
    | Ok b => (mkResult b (_builder self) (calls self) (_last_suite self)
                        (out_dir self) (out_suffix self), Ok tt)
    | Raise e => (self, Raise e)
    end.

Definition set_last_suite (v : option string) : M unit := fun self =>
  (mkResult (base self) (_builder self) (calls self) v
            (out_dir self) (out_suffix self), Ok tt).

(** What a call does to the builder. *)
Definition perform (c : call) (b : XMLContextBuilder)
  : result XMLContextBuilder :=
  match c with
  | BeginContext tag name => begin_context tag name b
  | EndContext => end_context b
  | IncrementCounter name => increment_counter name b
  | Append tag cdata attrs => append tag cdata attrs b
  | AppendCdataSection tag text => append_cdata_section tag text b
  | Finish =>
      match finish b with
      | Ok (_, b') => Ok b'
      | Raise e => Raise e
      end
  end.

(** [self._builder.<call>(...)]: the call is recorded, then performed. *)
Definition invoke (c : call) : M unit := fun self =>
  let cs := (calls self ++ [c])%list in
  match perform c (_builder self) with
  | Ok b => (mkResult (base self) b cs (_last_suite self)
                      (out_dir self) (out_suffix self), Ok tt)
  | Raise e => (mkResult (base self) (_builder self) cs (_last_suite self)
                         (out_dir self) (out_suffix self), Raise e)
  end.

(** [self._builder.finish()], which also returns the document. *)
Definition invoke_finish : M node := fun self =>
  let cs := (calls self ++ [Finish])%list in
  match finish (_builder self) with
  | Ok (doc, b) => (mkResult (base self) b cs (_last_suite self)
                             (out_dir self) (out_suffix self), Ok doc)
  | Raise e => (mkResult (base self) (_builder self) cs (_last_suite self)
                         (out_dir self) (out_suffix self), Raise e)
  end.

(** [self._stdout_buffer.getvalue()] and its sibling. *)
Definition getvalue (buf : TestResult -> option string) : M string :=
  fun self =>
    match buf (base self) with
    | Some text => (self, Ok text)
    | None => (self, Raise AttributeError)
    end.

(** [_timestamp] *)
Definition _timestamp (now : struct_time) : string :=
  strftime "%Y%m%dT%H%M%S" now.

(** [__init__]; [now] is what the clock shows at that moment. *)
Definition __init__ (now : struct_time) (stream : option nat)
    (descriptions : option bool) (verbosity : option nat)
    (out_dir : target) (out_suffix : option string) : result XMLTestResult :=
  let b := with_buffer true (base_init stream descriptions verbosity) in
  let make suffix := mkResult b new_builder [] None out_dir suffix in
  if truthy_opt out_suffix then
    match str_format (default "" out_suffix) [_timestamp now] with
    | Ok suffix => Ok (make suffix)
    | Raise e => Raise e
    end
  else Ok (make (_timestamp now)).

(** [_test_class_name] *)
Definition _test_class_name (test : TestCase) : string := strclass test.

(** [_current_suite_finished] *)
Definition _current_suite_finished (self : XMLTestResult) (test : TestCase)
  : bool :=
  negb (bool_decide (_last_suite self = Some (_test_class_name test))).

(** [_start_new_suite] *)
Definition _start_new_suite (test : TestCase) : M unit :=
  self ← get;
  (if truthy_opt (_last_suite self) then invoke EndContext else mret tt);;
  set_last_suite (Some (_test_class_name test));;
  invoke (BeginContext "testsuite" (_test_class_name test)).

(** [_get_description] *)
Definition _get_description (test : TestCase) : string :=
  let doc_first_line := shortDescription test in
  if truthy_opt doc_first_line then default "" doc_first_line
  else _testMethodName test.

(** [startTestRun] (the method of the base class does nothing) *)
Definition startTestRun : M unit :=
  invoke (BeginContext "testsuites" "TestSuites").

(** [startTest] *)
Definition startTest (test : TestCase) : M unit :=
  super base_startTest;;
  self ← get;
  (if String.eqb (context_tag (_builder self)) "testsuites"
      || _current_suite_finished self test
   then _start_new_suite test else mret tt);;
  invoke (BeginContext "testcase" (_get_description test)).

(** [stopTest] *)
Definition stopTest (test : TestCase) : M unit :=
  out_data ← getvalue _stdout_buffer;
  err_data ← getvalue _stderr_buffer;
  super_try base_stopTest;;
  (if truthy out_data
   then invoke (AppendCdataSection "system-out" out_data) else mret tt);;
  (if truthy err_data
   then invoke (AppendCdataSection "system-err" err_data) else mret tt);;
  invoke (IncrementCounter "tests");;
  invoke EndContext.

(** [addSkip] *)
Definition addSkip (test : TestCase) (reason : string) : M unit :=
  super (base_addSkip test reason);;
  invoke (IncrementCounter "skipped");;
  invoke (Append "skipped" None [("message", reason)]).

Section Formatter.

(** [self._exc_info_to_string(err, test)] of the base class: the traceback
    formatter, which may look at the state of the result. *)
Variable _exc_info_to_string : TestResult -> exc_info -> TestCase -> string.

(** [_append_error_data] *)
Definition _append_error_data (test : TestCase) (error_type : string)
    (err : option exc_info) : M unit :=
  let params := [("message", "Unexpected success")] in
  match err with
  | Some e =>
      let params := dict_set "type" (exctype_name e) params in
      first_line ← lift (item0 (splitlines (value_str e)));
      let params := dict_set "message" first_line params in
      self ← get;
      let cdata := Some (_exc_info_to_string (base self) e test) in
      invoke (Append error_type cdata params)
  | None => invoke (Append error_type None params)
  end.

(** [_add_generic_failure] *)
Definition _add_generic_failure (test : TestCase) (err : option exc_info)
  : M unit :=
  invoke (IncrementCounter "failures");;
  _append_error_data test "failure" err.

(** [addError] *)
Definition addError (test : TestCase) (err : exc_info) : M unit :=
  self ← get;
  super (base_addError test (_exc_info_to_string (base self) err test));;
  invoke (IncrementCounter "errors");;
  _append_error_data test "error" (Some err).

(** [addFailure] *)
Definition addFailure (test : TestCase) (err : exc_info) : M unit :=
  self ← get;
  super (base_addFailure test (_exc_info_to_string (base self) err test));;
  _add_generic_failure test (Some err).

(** [addUnexpectedSuccess] *)
Definition addUnexpectedSuccess (test : TestCase) : M unit :=
  super (base_addUnexpectedSuccess test);;
  _add_generic_failure test None.

End Formatter.

(** [_generate_report]: the file is opened before [finish] is evaluated,
    and written once [finish] has returned. *)
Definition _generate_report (os : os_state) (self : XMLTestResult)
  : XMLTestResult * os_state * result unit :=
  match out_dir self with
  | Directory stream =>
      match str_format "{0}{1}TESTS-TestSuites-{3}.xml"
                       [stream; sep os; "suite"; out_suffix self] with
      | Ok filename =>
          let os1 := if path_exists stream os then os
                     else makedirs stream os in
          let os2 := open_w filename os1 in
          match invoke_finish self with
          | (self', Ok doc) => (self', file_write filename doc os2, Ok tt)
          | (self', Raise e) => (self', os2, Raise e)
          end
      | Raise e => (self, os, Raise e)
      end
  | Stream handle =>
      match invoke_finish self with
      | (self', Ok doc) => (self', stream_write handle doc os, Ok tt)
      | (self', Raise e) => (self', os, Raise e)
      end
  end.

(** [stopTestRun] (the method of the base class does nothing) *)
Definition stopTestRun (os : os_state) (self : XMLTestResult)
  : XMLTestResult * os_state * result unit :=
  _generate_report os self.

End Listener.
Export Listener.

(** ** Phases of a run, and what the specification says of each event *)

Module Phases.

(** Key of the suite that is open on top of the builder's stack, if any. *)
Definition open_suite (self : XMLTestResult) : option string :=
  match stack (_builder self) with
  | c :: _ =>
      if String.eqb (ctx_tag c) "testsuite" then Some (ctx_name c) else None
  | [] => None
  end.

(** Are the capture buffers empty (or not created yet)? *)
Definition buffers_empty (r : TestResult) : bool :=
  match _stdout_buffer r, _stderr_buffer r with
  | None, None => true
  | Some out, Some err => String.eqb out "" && String.eqb err ""
  | _, _ => false
  end.

(** The shape of the builder's stack between two tests of a started run:
    the root alone, or the root and one suite whose name is
    [_last_suite]. *)
Definition stack_between (self : XMLTestResult) : bool :=
  match stack (_builder self), _last_suite self with
  | [root], None => String.eqb (ctx_tag root) "testsuites"
  | [suite; root], Some key =>
      String.eqb (ctx_tag suite) "testsuite"
      && String.eqb (ctx_name suite) key
      && String.eqb (ctx_tag root) "testsuites"
      && truthy key
  | _, _ => false
  end.

(** The run has started and no test is running. *)
Definition between_tests (self : XMLTestResult) : bool :=
  buffer (base self) && negb (redirected (base self))
  && buffers_empty (base self) && stack_between self.

(** The shape of the builder's stack while a test is running. *)
Definition stack_in_test (self : XMLTestResult) : bool :=
  match stack (_builder self), _last_suite self with
  | [tc; suite; root], Some key =>
      String.eqb (ctx_tag tc) "testcase"
      && String.eqb (ctx_tag suite) "testsuite"
      && String.eqb (ctx_name suite) key
      && String.eqb (ctx_tag root) "testsuites"
      && truthy key
  | _, _ => false
  end.

(** A test has started and has not stopped yet. *)
Definition in_test (self : XMLTestResult) : bool :=
  buffer (base self) && redirected (base self)
  && bool_decide (is_Some (_stdout_buffer (base self)))
  && bool_decide (is_Some (_stderr_buffer (base self)))
  && stack_in_test self.

(** Test start, in the words of the specification: a new suite is due when
    no suite is open yet or when the key of the incoming test differs from
    the key of the suite that is open. *)
Definition new_suite_due (self : XMLTestResult) (test : TestCase) : bool :=
  match open_suite self with
  | None => true
  | Some key => negb (String.eqb key (strclass test))
  end.

(** The description of a test, in the words of the specification: the first
    line of its documentation if there is one, its method name otherwise. *)
Definition description (test : TestCase) : string :=
  match shortDescription test with
  | Some line => if String.eqb line "" then _testMethodName test else line
  | None => _testMethodName test
  end.

(** The calls the specification expects of a test start. *)
Definition expected_start_calls (self : XMLTestResult) (test : TestCase)
  : list call :=
  ((if new_suite_due self test then
      (match open_suite self with Some _ => [EndContext] | None => [] end)
      ++ [BeginContext "testsuite" (strclass test)]
    else [])
   ++ [BeginContext "testcase" (description test)])%list.

(** The leaf that holds a captured output, present only if there is one. *)
Definition output_leaf (tag text : string) : list node :=
  if truthy text then [Leaf tag (Some text) []] else [].

(** The call that attaches a captured output, made only if there is one. *)
Definition output_call (tag text : string) : list call :=
  if truthy text then [AppendCdataSection tag text] else [].

(** Several children added in order at the end of a context. *)
Definition add_children (ns : list node) (c : Context) : Context :=
  mkContext (ctx_tag c) (ctx_name c) (ctx_counters c)
            (ctx_children c ++ ns)%list.

(** Counter [name] is one more in [after] than in [before], and every
    other counter is the same in both. *)
Definition incremented (name : string) (before after : Context) : Prop :=
  forall n,
    counter (ctx_counters after) n
    = counter (ctx_counters before) n + (if String.eqb n name then 1 else 0).

(** What a running test writes to the two standard streams. *)
Inductive output : Type :=
| Out (text : string)
| Err (text : string).

Definition emit1 (o : output) : M unit :=
  match o with
  | Out text => super (write_stdout text)
  | Err text => super (write_stderr text)
  end.

Fixpoint emit (body : list output) : M unit :=
  match body with
  | [] => mret tt
  | o :: body' => emit1 o;; emit body'
  end.

(** Everything a test body wrote to standard output, in order. *)
Fixpoint written_out (body : list output) : string :=
  match body with
  | [] => ""
  | Out text :: body' => text +:+ written_out body'
  | Err _ :: body' => written_out body'
  end.

(** Everything a test body wrote to standard error, in order. *)
Fixpoint written_err (body : list output) : string :=
  match body with
  | [] => ""
  | Out _ :: body' => written_err body'
  | Err text :: body' => text +:+ written_err body'
  end.

(** The name of the report file, in the words of the specification. *)
Definition report_name (dir separator suffix : string) : string :=
  dir +:+ separator +:+ "TESTS-TestSuites-" +:+ suffix +:+ ".xml".

(** The calls made on the builder by the run stop, as the difference
    between the record after and the record before. *)
Definition stop_calls (os : os_state) (self : XMLTestResult) : list call :=
  drop (length (calls self)) (calls (stopTestRun os self).1.1).

(** Run stop as the specification words it: when a suite is still open, an
    [end_context] is issued before [finish]. *)
Definition stop_closes_open_suite (os : os_state) (self : XMLTestResult)
  : Prop :=
  is_Some (open_suite self) ->
  exists before after,
    stop_calls os self = (before ++ EndContext :: after ++ [Finish])%list.

(** A character that is not a brace. *)
Definition not_brace (c : ascii) : bool :=
  negb (Ascii.eqb c "{") && negb (Ascii.eqb c "}").

Fixpoint brace_free (s : string) : bool :=
  match s with
  | EmptyString => true
  | String c rest => not_brace c && brace_free rest
  end.

End Phases.
Export Phases.

(** ** Sample runs *)

Module Samples.

Definition clock : struct_time := mkTime 2026 11 3 9 5 7.

Definition traceback_text (r : TestResult) (e : exc_info) (t : TestCase)
  : string :=
  "Traceback (most recent call last): " +:+ exctype_name e.

Definition test_a : TestCase := mkTest "pkg" "Foo" "test_a" None.
Definition test_b : TestCase := mkTest "pkg" "Foo" "test_b" (Some "does b").
Definition test_c : TestCase := mkTest "pkg" "Bar" "test_c" (Some "").

Definition empty_os : os_state := mkOS "/" ∅ ∅ ∅.

(** A listener as [__init__] leaves it, writing under directory [out]. *)
Definition fresh : XMLTestResult :=
  mkResult (with_buffer true (base_init None None None)) new_builder []
           None (Directory "out") "20261103T090507".

(** After [startTestRun]. *)
Definition started : XMLTestResult := (startTestRun fresh).1.

(** After [startTestRun] and [startTest test_a]. *)
Definition running : XMLTestResult := (startTest test_a started).1.

(** After one complete test. *)
Definition one_test_run : XMLTestResult := (stopTest test_a running).1.

(** An assertion that failed without a message: [str(value)] is empty. *)
Definition silent_failure : exc_info := mkExc "AssertionError" "" [].

Definition boom : exc_info := mkExc "AssertionError" "boom" ["frame"].

End Samples.

(** ** A whole run, as the test driver conducts it *)

Module Runs.

(** What can happen between the start and the stop of one test: the test
    writes to a standard stream, or the driver reports how it ended. *)
Inductive event : Type :=
| Write (o : output)
| Skip (reason : string)
| Error (err : exc_info)
| Failure (err : exc_info)
| UnexpectedSuccess.

(** The counter that the report of an event increments, if any. *)
Definition event_counter (ev : event) : option string :=
  match ev with
  | Write _ => None
  | Skip _ => Some "skipped"
  | Error _ => Some "errors"
  | Failure _ | UnexpectedSuccess => Some "failures"
  end.

(** Does the event count for the counter [name]? *)
Definition counts_for (name : string) (ev : event) : bool :=
  match event_counter ev with
  | Some n => String.eqb name n
  | None => false
  end.

(** An event whose report carries an exception has a message that is not
    empty. *)
Definition reportable (ev : event) : bool :=
  match ev with
  | Error err | Failure err => truthy (value_str err)
  | _ => true
  end.

Section Driver.

Variable _exc_info_to_string : TestResult -> exc_info -> TestCase -> string.

(** The method of the listener that an event lands in. *)
Definition report (test : TestCase) (ev : event) : M unit :=
  match ev with
  | Write o => emit1 o
  | Skip reason => addSkip test reason
  | Error err => addError _exc_info_to_string test err
  | Failure err => addFailure _exc_info_to_string test err
  | UnexpectedSuccess => addUnexpectedSuccess _exc_info_to_string test
  end.

Fixpoint reports (test : TestCase) (evs : list event) : M unit :=
  match evs with
  | [] => mret tt
  | ev :: evs' => report test ev;; reports test evs'
  end.

(** One test: start, events, stop. *)
Definition run_test (t : TestCase * list event) : M unit :=
  startTest t.1;; reports t.1 t.2;; stopTest t.1.

(** The tests of a run, in order. *)
Fixpoint run_tests (ts : list (TestCase * list event)) : M unit :=
  match ts with
  | [] => mret tt
  | t :: ts' => run_test t;; run_tests ts'
  end.

End Driver.

(** Can every event of every test of a run be reported? *)
Definition all_reportable (ts : list (TestCase * list event)) : bool :=
  forallb (fun t => forallb reportable t.2) ts.

(** Number of calls in a record that satisfy [p]. *)
Fixpoint count_calls (p : call -> bool) (cs : list call) : nat :=
  match cs with
  | [] => 0
  | c :: cs' => (if p c then 1 else 0) + count_calls p cs'
  end.

Definition is_increment (name : string) (c : call) : bool :=
  match c with
  | IncrementCounter n => String.eqb name n
  | _ => false
  end.

Definition is_begin (tag : string) (c : call) : bool :=
  match c with
  | BeginContext t _ => String.eqb tag t
  | _ => false
  end.

Definition is_end (c : call) : bool :=
  match c with
  | EndContext => true
  | _ => false
  end.

(** Number of events of a test that count for the counter [name]. *)
Fixpoint count_events (name : string) (evs : list event) : nat :=
  match evs with
  | [] => 0
  | ev :: evs' => (if counts_for name ev then 1 else 0)
                  + count_events name evs'
  end.

(** The same over all the tests of a run; a test itself counts for
    [tests]. *)
Fixpoint run_total (name : string) (ts : list (TestCase * list event))
  : nat :=
  match ts with
  | [] => 0
  | t :: ts' => (if String.eqb name "tests" then 1 else 0)
                + count_events name t.2 + run_total name ts'
  end.

(** Number of places in a sequence of tests where the class name is not the
    one before; [open] is the key of the suite open at the start. *)
Fixpoint suite_changes (open : option string) (ts : list TestCase) : nat :=
  match ts with
  | [] => 0
  | t :: ts' =>
      (match open with
       | Some key => if String.eqb key (strclass t) then 0 else 1
       | None => 1
       end) + suite_changes (Some (strclass t)) ts'
  end.

(** Number of those places where a suite was open before. *)
Fixpoint suite_closes (open : option string) (ts : list TestCase) : nat :=
  match ts with
  | [] => 0
  | t :: ts' =>
      (match open with
       | Some key => if String.eqb key (strclass t) then 0 else 1
       | None => 0
       end) + suite_closes (Some (strclass t)) ts'
  end.

(** Key of the suite left open by a sequence of tests. *)
Definition last_key (open : option string) (ts : list TestCase)
  : option string :=
  match last ts with
  | Some t => Some (strclass t)
  | None => open
  end.

(** Value of a counter on the outermost open context. *)
Definition root_counter (self : XMLTestResult) (name : string) : nat :=
  match last (stack (_builder self)) with
  | Some root => counter (ctx_counters root) name
  | None => 0
  end.

(** A string without any line boundary. *)
Fixpoint single_line (s : string) : bool :=
  match s with
  | EmptyString => true
  | String c rest => negb (is_linebreak c) && single_line rest
  end.

(** A time whose year has four digits and whose other fields have at most
    two, as every calendar time of the years 1000 to 9999 has. *)
Definition four_digit_year (t : struct_time) : bool :=
  Nat.leb 1000 (tm_year t) && Nat.ltb (tm_year t) (10 * 1000)
  && Nat.ltb (tm_mon t) 100 && Nat.ltb (tm_mday t) 100
  && Nat.ltb (tm_hour t) 100 && Nat.ltb (tm_min t) 100
  && Nat.ltb (tm_sec t) 100.

(** A run of three tests in which the first class comes back after another
    one. *)
Definition interleaved : list (TestCase * list event) :=
  [(Samples.test_a, [Write (Out "a")]);
   (Samples.test_c, [Skip "later"]);
   (Samples.test_b, [Failure Samples.boom; Write (Err "b")])].

End Runs.
Export Runs.

(** ** Properties *)

Import Samples.

(** *** Strings and dictionaries *)

Lemma truthy_append_char (line : string) (c : ascii) :
  truthy (line +:+ String c "") = true.
Proof. destruct line; reflexivity. Qed.

Lemma splitlines_go_pending (s : string) :
  forall after_cr line,
    truthy line = true -> splitlines_go after_cr line s <> [].
Proof.
  induction s as [|c rest IH]; intros after_cr line Hline; simpl.
  - rewrite Hline. discriminate.
  - destruct (after_cr && is_lf c); [now apply IH|].
    destruct (is_linebreak c); [discriminate|].
    apply IH, truthy_append_char.
Qed.

(** A string that is not empty has a first line. *)
Lemma splitlines_first_line (s : string) :
  s <> "" -> exists line rest, splitlines s = line :: rest.
Proof.
  intros Hs. destruct s as [|c rest]; [congruence|].
  destruct (splitlines (String c rest)) as [|line lines] eqn:E.
  - exfalso. revert E. unfold splitlines. simpl.
    destruct (is_linebreak c); [discriminate|].
    apply splitlines_go_pending. reflexivity.
  - eauto.
Qed.

(** Only the empty string has no line at all. *)
Lemma splitlines_nil_iff (s : string) : splitlines s = [] <-> s = "".
Proof.
  split.
  - intros H. destruct s as [|c rest]; [reflexivity|].
    destruct (splitlines_first_line (String c rest)) as (l & ls & E);
      [discriminate | congruence].
  - intros ->. reflexivity.
Qed.

Example splitlines_boom : splitlines "boom" = ["boom"].
Proof. reflexivity. Qed.

Example splitlines_crlf :
  splitlines ("a" +:+ String (ascii_of_nat 13) (String (ascii_of_nat 10) "b")
                  +:+ String (ascii_of_nat 10) "")
  = ["a"; "b"].
Proof. reflexivity. Qed.

Example splitlines_blank_first :
  splitlines (String (ascii_of_nat 10) "x") = [""; "x"].
Proof. reflexivity. Qed.

(** *** Counters of the builder *)

Lemma counter_bump (name n : string) (c : Context) :
  counter (ctx_counters (bump name c)) n
  = counter (ctx_counters c) n + (if String.eqb n name then 1 else 0).
Proof.
  unfold bump, counter. simpl.
  destruct (String.eqb_spec n name) as [->|Hne].
  - rewrite lookup_insert_eq. simpl. lia.
  - rewrite lookup_insert_ne by congruence. lia.
Qed.

Lemma counter_add_child (n : string) (child : node) (c : Context) :
  counter (ctx_counters (add_child child c)) n = counter (ctx_counters c) n.
Proof. reflexivity. Qed.

(** *** Shapes of the stack in each phase *)

Lemma stack_between_inv (self : XMLTestResult) :
  stack_between self = true ->
  (exists rname rcs rch,
      stack (_builder self) = [mkContext "testsuites" rname rcs rch]
      /\ _last_suite self = None)
  \/ (exists key scs sch rname rcs rch,
      stack (_builder self) =
        [mkContext "testsuite" key scs sch;
         mkContext "testsuites" rname rcs rch]
      /\ _last_suite self = Some key /\ truthy key = true).
Proof.
  unfold stack_between.
  destruct (stack (_builder self))
    as [|[t1 n1 c1 h1] [|[t2 n2 c2 h2] [|? ?]]]; try discriminate;
    destruct (_last_suite self) as [key|]; try discriminate; cbn; intros H.
  - left. apply String.eqb_eq in H. subst. eauto.
  - right. repeat (apply andb_prop in H; destruct H as [H ?]).
    repeat match goal with
           | E : String.eqb _ _ = true |- _ => apply String.eqb_eq in E
           end.
    subst. eauto 10.
Qed.

Lemma stack_in_test_inv (self : XMLTestResult) :
  stack_in_test self = true ->
  exists name tcs tch key scs sch rname rcs rch,
    stack (_builder self) =
      [mkContext "testcase" name tcs tch; mkContext "testsuite" key scs sch;
       mkContext "testsuites" rname rcs rch]
    /\ _last_suite self = Some key /\ truthy key = true.
Proof.
  unfold stack_in_test.
  destruct (stack (_builder self))
    as [|[t1 n1 c1 h1] [|[t2 n2 c2 h2] [|[t3 n3 c3 h3] [|? ?]]]];
    try discriminate;
    destruct (_last_suite self) as [key|]; try discriminate; cbn; intros H.
  repeat (apply andb_prop in H; destruct H as [H ?]).
  repeat match goal with
         | E : String.eqb _ _ = true |- _ => apply String.eqb_eq in E
         end.
  subst. eauto 12.
Qed.

(** Unpacks [in_test] into its parts. *)
Lemma in_test_inv (self : XMLTestResult) :
  in_test self = true ->
  buffer (base self) = true /\ redirected (base self) = true
  /\ (exists out err, _stdout_buffer (base self) = Some out
                      /\ _stderr_buffer (base self) = Some err)
  /\ stack_in_test self = true.
Proof.
  unfold in_test. intros H.
  repeat (apply andb_prop in H; destruct H as [H ?]).
  repeat match goal with
         | E : bool_decide _ = true |- _ => apply bool_decide_eq_true in E
         end.
  repeat match goal with E : is_Some _ |- _ => destruct E end.
  eauto 10.
Qed.

(** Unpacks [between_tests] into its parts. *)
Lemma between_tests_inv (self : XMLTestResult) :
  between_tests self = true ->
  buffer (base self) = true /\ redirected (base self) = false
  /\ buffers_empty (base self) = true /\ stack_between self = true.
Proof.
  unfold between_tests. intros H.
  repeat (apply andb_prop in H; destruct H as [H ?]).
  rewrite negb_true_iff in *. auto.
Qed.

(** In both phases the open contexts are tagged as the document shape has
    them, so a test that is running has a testcase on top. *)
Lemma in_test_top_is_testcase (self : XMLTestResult) :
  in_test self = true -> context_tag (_builder self) = "testcase".
Proof.
  intros H. apply in_test_inv in H as (_ & _ & _ & H).
  apply stack_in_test_inv in H
    as (name & tcs & tch & key & scs & sch & rname & rcs & rch & E & _).
  unfold context_tag. now rewrite E.
Qed.

(** *** Reports made while a test is running *)

(** Opens up a running-test state: names the three open contexts and the
    two buffers, and leaves the listener as a record of its parts. *)
Ltac open_test self H :=
  let Hb := fresh "Hbuffer" in
  let Hr := fresh "Hredirected" in
  let Hs := fresh "Hstack" in
  apply in_test_inv in H as (Hb & Hr & (?out & ?err & ?Hout & ?Herr) & Hs);
  apply stack_in_test_inv in Hs
    as (?name & ?tcs & ?tch & ?key & ?scs & ?sch & ?rname & ?rcs & ?rch
        & Hs & ?Hlast & ?Hkey);
  destruct self as [?b [?st ?doc] ?cs ?ls ?od ?osx]; cbn in * |-; subst.

Lemma incremented_bump (name : string) (c : Context) :
  incremented name c (bump name c).
Proof. intros n. apply counter_bump. Qed.

Lemma incremented_bump_child (name : string) (child : node) (c : Context) :
  incremented name c (add_child child (bump name c)).
Proof. intros n. rewrite counter_add_child. apply counter_bump. Qed.

Create HintDb listener.

#[local] Hint Resolve incremented_bump incremented_bump_child : listener.

(** C9. For every skip report with reason [reason] made while a test is
    running, the listener increments the [skipped] counter, and no other, by
    one on each open context, and appends to the current testcase context a
    leaf tagged [skipped] whose only attribute is [message = reason] and
    which has no CDATA body. *)
Theorem addSkip_counts_and_appends (self : XMLTestResult) (test : TestCase)
    (reason : string) :
  in_test self = true ->
  exists tc suite root self',
    stack (_builder self) = [tc; suite; root]
    /\ ctx_tag tc = "testcase"
    /\ addSkip test reason self = (self', Ok tt)
    /\ calls self'
       = (calls self ++ [IncrementCounter "skipped";
                         Append "skipped" None [("message", reason)]])%list
    /\ exists tc' suite' root',
         stack (_builder self') = [tc'; suite'; root']
         /\ ctx_children tc'
            = (ctx_children tc
                 ++ [Leaf "skipped" None [("message", reason)]])%list
         /\ ctx_children suite' = ctx_children suite
         /\ ctx_children root' = ctx_children root
         /\ incremented "skipped" tc tc'
         /\ incremented "skipped" suite suite'
         /\ incremented "skipped" root root'.
Proof.
  intros H. open_test self H.
  do 4 eexists. split; [reflexivity|]. split; [reflexivity|].
  split; [reflexivity|]. cbn. split; [now rewrite <- app_assoc|].
  do 3 eexists. split; [reflexivity|].
  repeat split; auto with listener.
Qed.

Lemma addSkip_counts_and_appends_witness :
  in_test running = true
  /\ (addSkip test_a "not today" running).2 = Ok tt.
Proof.
  split; [reflexivity|].
  destruct (addSkip_counts_and_appends running test_a "not today" eq_refl)
    as (tc & suite & root & self' & _ & _ & E & _).
  rewrite E. reflexivity.
Defined.

(** C5. For every unexpected-success report made while a test is running,
    the listener does what a generic failure without exception does: the
    [failures] counter, and no other, grows by one on each open context, and
    a leaf tagged [failure] is appended to the testcase whose only attribute
    is [message = "Unexpected success"] (no [type]) and which has no CDATA
    body. *)
Theorem addUnexpectedSuccess_is_plain_failure
    (tbf : TestResult -> exc_info -> TestCase -> string)
    (self : XMLTestResult) (test : TestCase) :
  in_test self = true ->
  exists tc suite root self',
    stack (_builder self) = [tc; suite; root]
    /\ addUnexpectedSuccess tbf test self = (self', Ok tt)
    /\ calls self'
       = (calls self
            ++ [IncrementCounter "failures";
                Append "failure" None [("message", "Unexpected success")]])%list
    /\ _builder self' = _builder (_add_generic_failure tbf test None self).1
    /\ exists tc' suite' root',
         stack (_builder self') = [tc'; suite'; root']
         /\ ctx_children tc'
            = (ctx_children tc
                 ++ [Leaf "failure" None
                          [("message", "Unexpected success")]])%list
         /\ incremented "failures" tc tc'
         /\ incremented "failures" suite suite'
         /\ incremented "failures" root root'.
Proof.
  intros H. open_test self H.
  do 4 eexists. split; [reflexivity|]. split; [reflexivity|].
  cbn. split; [now rewrite <- app_assoc|]. split; [reflexivity|].
  do 3 eexists. split; [reflexivity|].
  repeat split; auto with listener.
Qed.

Lemma addUnexpectedSuccess_is_plain_failure_witness :
  in_test running = true
  /\ (addUnexpectedSuccess traceback_text test_a running).2 = Ok tt.
Proof.
  split; [reflexivity|].
  destruct (addUnexpectedSuccess_is_plain_failure traceback_text running
              test_a eq_refl)
    as (tc & suite & root & self' & _ & E & _).
  rewrite E. reflexivity.
Defined.

(** What [_append_error_data] does with an exception whose message has a
    first line. *)
Lemma append_error_data_with_line
    (tbf : TestResult -> exc_info -> TestCase -> string)
    (self : XMLTestResult) (test : TestCase) (tag : string) (e : exc_info)
    (line : string) (rest : list string) :
  splitlines (value_str e) = line :: rest ->
  _append_error_data tbf test tag (Some e) self
  = invoke (Append tag (Some (tbf (base self) e test))
                   [("message", line); ("type", exctype_name e)]) self.
Proof.
  intros E. unfold _append_error_data, mbind, M_bind, lift, get.
  rewrite E. reflexivity.
Qed.

(** C4. For every error (resp. failure) reported while a test is running
    with an exception whose string representation is not empty, the [errors]
    (resp. [failures]) counter, and no other, grows by one on each open
    context, and a leaf tagged [error] (resp. [failure]) is appended to the
    testcase: its [message] is the first line of the string representation,
    its [type] is the name of the exception class, and its CDATA body is the
    text returned by the traceback formatter. *)
Theorem addError_addFailure_record_exception
    (tbf : TestResult -> exc_info -> TestCase -> string)
    (self : XMLTestResult) (test : TestCase) (e : exc_info) :
  in_test self = true ->
  value_str e <> "" ->
  exists tc suite root line rest,
    stack (_builder self) = [tc; suite; root]
    /\ splitlines (value_str e) = line :: rest
    /\ (let attrs := [("message", line); ("type", exctype_name e)] in
        exists self' text,
          addError tbf test e self = (self', Ok tt)
          /\ text = tbf (base self') e test
          /\ calls self'
             = (calls self ++ [IncrementCounter "errors";
                               Append "error" (Some text) attrs])%list
          /\ exists tc' suite' root',
               stack (_builder self') = [tc'; suite'; root']
               /\ ctx_children tc'
                  = (ctx_children tc
                       ++ [Leaf "error" (cdata_body (Some text)) attrs])%list
               /\ incremented "errors" tc tc'
               /\ incremented "errors" suite suite'
               /\ incremented "errors" root root')
    /\ (let attrs := [("message", line); ("type", exctype_name e)] in
        exists self' text,
          addFailure tbf test e self = (self', Ok tt)
          /\ text = tbf (base self') e test
          /\ calls self'
             = (calls self ++ [IncrementCounter "failures";
                               Append "failure" (Some text) attrs])%list
          /\ exists tc' suite' root',
               stack (_builder self') = [tc'; suite'; root']
               /\ ctx_children tc'
                  = (ctx_children tc
                       ++ [Leaf "failure" (cdata_body (Some text)) attrs])%list
               /\ incremented "failures" tc tc'
               /\ incremented "failures" suite suite'
               /\ incremented "failures" root root').
Proof.
  intros H Hmsg.
  destruct (splitlines_first_line _ Hmsg) as (line & rest & E).
  open_test self H.
  exists (mkContext "testcase" name tcs tch),
    (mkContext "testsuite" key scs sch),
    (mkContext "testsuites" rname rcs rch), line, rest.
  split; [reflexivity|]. split; [exact E|]. split.
  - unfold addError, _add_generic_failure, mbind, M_bind, get, super.
    cbn [base _builder calls _last_suite out_dir out_suffix].
    unfold invoke at 1. cbn [perform increment_counter _builder stack map
      document base calls _last_suite out_dir out_suffix].
    rewrite (append_error_data_with_line _ _ _ _ _ _ _ E).
    do 2 eexists. split; [reflexivity|]. split; [reflexivity|].
    cbn. split; [now rewrite <- app_assoc|].
    do 3 eexists. split; [reflexivity|].
    repeat split; auto with listener.
  - unfold addFailure, _add_generic_failure, mbind, M_bind, get, super.
    cbn [base _builder calls _last_suite out_dir out_suffix].
    unfold invoke at 1. cbn [perform increment_counter _builder stack map
      document base calls _last_suite out_dir out_suffix].
    rewrite (append_error_data_with_line _ _ _ _ _ _ _ E).
    do 2 eexists. split; [reflexivity|]. split; [reflexivity|].
    cbn. split; [now rewrite <- app_assoc|].
    do 3 eexists. split; [reflexivity|].
    repeat split; auto with listener.
Qed.

Lemma addError_addFailure_record_exception_witness :
  in_test running = true /\ value_str boom <> ""
  /\ (addError traceback_text test_a boom running).2 = Ok tt.
Proof.
  split; [reflexivity|]. split; [discriminate|].
  destruct (addError_addFailure_record_exception traceback_text running
              test_a boom eq_refl ltac:(discriminate))
    as (tc & suite & root & line & rest & _ & _ & (self' & text & E & _) & _).
  rewrite E. reflexivity.
Defined.

(** C2 (the code departs from it). When the string representation of the
    exception is empty, taking the first line of the message fails: both
    [addError] and [addFailure] raise [IndexError] after the counter has been
    incremented, and no leaf is appended. *)
Theorem empty_message_raises_IndexError
    (tbf : TestResult -> exc_info -> TestCase -> string)
    (self : XMLTestResult) (test : TestCase) (name : string)
    (tb : list string) :
  let e := mkExc name "" tb in
  (addError tbf test e self).2 = Raise IndexError
  /\ calls (addError tbf test e self).1
     = (calls self ++ [IncrementCounter "errors"])%list
  /\ (addFailure tbf test e self).2 = Raise IndexError
  /\ calls (addFailure tbf test e self).1
     = (calls self ++ [IncrementCounter "failures"])%list.
Proof. repeat split. Qed.

Example silent_failure_is_not_recorded :
  (addFailure traceback_text test_a silent_failure running).2
  = Raise IndexError.
Proof. reflexivity. Qed.


(** *** The test cycle *)

Lemma strclass_truthy (test : TestCase) : truthy (strclass test) = true.
Proof.
  unfold strclass. destruct (cls_module test); reflexivity.
Qed.

Lemma get_description_spec (test : TestCase) :
  _get_description test = description test.
Proof.
  unfold _get_description, description, truthy_opt, truthy.
  destruct (shortDescription test) as [line|]; [|reflexivity].
  simpl. destruct (String.eqb line ""); reflexivity.
Qed.

(** Start of a test when only the root is open. *)
Lemma startTest_eq_first (test : TestCase) (b : TestResult)
    rname rcs rch doc cs od osx :
  startTest test
    (mkResult b (mkBuilder [mkContext "testsuites" rname rcs rch] doc)
              cs None od osx)
  = (mkResult (base_startTest b)
       (mkBuilder
          [mkContext "testcase" (_get_description test) zero_counters [];
           mkContext "testsuite" (strclass test) zero_counters [];
           mkContext "testsuites" rname rcs rch] doc)
       (cs ++ [BeginContext "testsuite" (strclass test);
               BeginContext "testcase" (_get_description test)])
       (Some (strclass test)) od osx, Ok tt).
Proof.
  unfold startTest, _start_new_suite, mbind, M_bind, super, get,
    set_last_suite, invoke, _test_class_name.
  cbn [base _builder calls _last_suite out_dir out_suffix context_tag stack
       ctx_tag truthy_opt perform begin_context document].
  change (String.eqb "testsuites" "testsuites") with true.
  cbn [orb]. cbn [base _builder calls _last_suite out_dir out_suffix
       perform begin_context document stack M_ret mret truthy_opt].
  now rewrite <- app_assoc.
Qed.

(** Start of a test of the class whose suite is open. *)
Lemma startTest_eq_same (test : TestCase) (b : TestResult)
    scs sch rname rcs rch doc cs od osx :
  let suite := mkContext "testsuite" (strclass test) scs sch in
  let root := mkContext "testsuites" rname rcs rch in
  startTest test
    (mkResult b (mkBuilder [suite; root] doc) cs (Some (strclass test))
              od osx)
  = (mkResult (base_startTest b)
       (mkBuilder
          [mkContext "testcase" (_get_description test) zero_counters [];
           suite; root] doc)
       (cs ++ [BeginContext "testcase" (_get_description test)])
       (Some (strclass test)) od osx, Ok tt).
Proof.
  intros suite root.
  unfold startTest, _start_new_suite, mbind, M_bind, super, get,
    set_last_suite, invoke, _test_class_name, _current_suite_finished,
    suite, root.
  cbn [base _builder calls _last_suite out_dir out_suffix context_tag stack
       ctx_tag truthy_opt perform begin_context document].
  change (String.eqb "testsuite" "testsuites") with false.
  unfold _test_class_name.
  rewrite bool_decide_eq_true_2 by reflexivity.
  reflexivity.
Qed.

(** Start of a test of another class than the one whose suite is open. *)
Lemma startTest_eq_other (test : TestCase) (b : TestResult) (key : string)
    scs sch rname rcs rch doc cs od osx :
  key <> strclass test ->
  truthy key = true ->
  let suite := mkContext "testsuite" key scs sch in
  let root := mkContext "testsuites" rname rcs rch in
  startTest test
    (mkResult b (mkBuilder [suite; root] doc) cs (Some key) od osx)
  = (mkResult (base_startTest b)
       (mkBuilder
          [mkContext "testcase" (_get_description test) zero_counters [];
           mkContext "testsuite" (strclass test) zero_counters [];
           add_child (close suite) root] doc)
       (cs ++ [EndContext; BeginContext "testsuite" (strclass test);
               BeginContext "testcase" (_get_description test)])
       (Some (strclass test)) od osx, Ok tt).
Proof.
  intros Hne Hk suite root.
  unfold startTest, _start_new_suite, mbind, M_bind, super, get,
    set_last_suite, invoke, _test_class_name, _current_suite_finished,
    suite, root.
  cbn [base _builder calls _last_suite out_dir out_suffix context_tag stack
       ctx_tag truthy_opt perform begin_context document].
  change (String.eqb "testsuite" "testsuites") with false.
  unfold _test_class_name.
  rewrite bool_decide_eq_false_2 by congruence.
  cbn [orb negb _last_suite truthy_opt]. rewrite Hk.
  cbn [base _builder calls _last_suite out_dir out_suffix
       perform begin_context end_context document stack M_ret mret].
  now rewrite <- !app_assoc.
Qed.

Lemma buffers_empty_inv (r : TestResult) :
  buffers_empty r = true ->
  (_stdout_buffer r = None /\ _stderr_buffer r = None)
  \/ (_stdout_buffer r = Some "" /\ _stderr_buffer r = Some "").
Proof.
  unfold buffers_empty.
  destruct (_stdout_buffer r) as [out|], (_stderr_buffer r) as [err|];
    try discriminate; auto.
  intros H. apply andb_prop in H as [H1 H2].
  apply String.eqb_eq in H1, H2. subst. auto.
Qed.

Lemma base_startTest_between (b : TestResult) :
  buffer b = true -> buffers_empty b = true ->
  buffer (base_startTest b) = true
  /\ redirected (base_startTest b) = true
  /\ _stdout_buffer (base_startTest b) = Some ""
  /\ _stderr_buffer (base_startTest b) = Some "".
Proof.
  intros Hb He. apply buffers_empty_inv in He.
  destruct b as [bf run mo so se rd es fs ss us]. cbn in Hb, He. subst.
  destruct He as [[-> ->]|[-> ->]]; repeat split.
Qed.

(** A test start between two tests succeeds, makes the calls expected of
    it, and leaves a running test whose buffers are empty. *)
Lemma startTest_spec (self : XMLTestResult) (test : TestCase) :
  between_tests self = true ->
  exists self' tc suite root,
    startTest test self = (self', Ok tt)
    /\ calls self' = (calls self ++ expected_start_calls self test)%list
    /\ in_test self' = true
    /\ _stdout_buffer (base self') = Some ""
    /\ _stderr_buffer (base self') = Some ""
    /\ stack (_builder self') = [tc; suite; root]
    /\ tc = mkContext "testcase" (description test) zero_counters []
    /\ ctx_tag suite = "testsuite"
    /\ ctx_name suite = strclass test.
Proof.
  intros H.
  apply between_tests_inv in H as (Hb & _ & He & Hs).
  destruct (base_startTest_between _ Hb He) as (Hb' & Hr' & Ho' & He').
  pose proof (strclass_truthy test) as Hkey.
  pose proof (get_description_spec test) as Hdesc.
  assert (Hin : forall b' bd cs od osx tc scs sch root,
             b' = base_startTest (base self) ->
             ctx_tag tc = "testcase" -> ctx_tag root = "testsuites" ->
             in_test (mkResult b'
                        (mkBuilder [tc; mkContext "testsuite" (strclass test)
                                          scs sch; root] bd)
                        cs (Some (strclass test)) od osx) = true).
  { intros b' bd cs od osx tc scs sch root -> Htc Hroot.
    unfold in_test, stack_in_test.
    cbn [base _builder stack _last_suite ctx_tag ctx_name].
    rewrite Hb', Hr', Ho', He', Htc, Hroot, Hkey, !String.eqb_refl.
    reflexivity. }
  apply stack_between_inv in Hs
    as [(rname & rcs & rch & Hs & Hl)
       |(key & scs & sch & rname & rcs & rch & Hs & Hl & Hk)];
    destruct self as [b [st doc] cs ls od osx]; cbn in Hs, Hl, Hin; subst;
    unfold expected_start_calls, new_suite_due, open_suite;
    cbn [_builder stack ctx_tag ctx_name base calls].
  - change (String.eqb "testsuites" "testsuite") with false. cbn iota.
    rewrite startTest_eq_first, <- Hdesc.
    do 4 eexists. split; [reflexivity|]. cbn [calls base _builder stack].
    repeat split; auto.
  - change (String.eqb "testsuite" "testsuite") with true. cbn iota.
    destruct (String.eqb_spec key (strclass test)) as [->|Hne]; cbn [negb].
    + rewrite startTest_eq_same, <- Hdesc.
      do 4 eexists. split; [reflexivity|]. cbn [calls base _builder stack].
      repeat split; auto.
    + rewrite startTest_eq_other, <- Hdesc by assumption.
      do 4 eexists. split; [reflexivity|]. cbn [calls base _builder stack].
      repeat split; auto.
Qed.

Lemma str_append_cons (x : ascii) (a b : string) :
  String x a +:+ b = String x (a +:+ b).
Proof. reflexivity. Qed.

Lemma str_append_assoc (a b c : string) : (a +:+ b) +:+ c = a +:+ (b +:+ c).
Proof.
  induction a as [|x a IH]; [reflexivity|].
  now rewrite !str_append_cons, IH.
Qed.

Lemma str_append_nil_r (a : string) : a +:+ "" = a.
Proof.
  induction a as [|x a IH]; [reflexivity|].
  now rewrite str_append_cons, IH.
Qed.

(** While a test is running, what it writes is added to the buffers and
    nothing else of the listener changes. *)
Lemma emit_spec (body : list output) :
  forall (self : XMLTestResult) (out err : string),
    in_test self = true ->
    _stdout_buffer (base self) = Some out ->
    _stderr_buffer (base self) = Some err ->
    exists self',
      emit body self = (self', Ok tt)
      /\ in_test self' = true
      /\ _builder self' = _builder self
      /\ calls self' = calls self
      /\ _stdout_buffer (base self') = Some (out +:+ written_out body)
      /\ _stderr_buffer (base self') = Some (err +:+ written_err body).
Proof.
  induction body as [|o body IH]; intros self out err Hin Hout Herr.
  - exists self. cbn [emit written_out written_err].
    rewrite !str_append_nil_r. repeat split; assumption.
  - pose proof Hin as Hin'.
    apply in_test_inv in Hin' as (Hb & Hr & _ & Hs).
    destruct self as [[bf run mo so se rd es fs ss us] bd cs ls od osx].
    cbn in Hb, Hr, Hout, Herr. subst.
    destruct o as [text|text].
    + edestruct (IH (mkResult
                  (mkBase true run mo (Some (out +:+ text)) (Some err) true
                          es fs ss us) bd cs ls od osx)
                  (out +:+ text) err)
        as (self' & E & Hin2 & Hbd & Hcs & Ho & He); try reflexivity.
      { unfold in_test in *. cbn in *. exact Hin. }
      exists self'. cbn in *. unfold mbind, M_bind. cbn.
      rewrite E, <- str_append_assoc. repeat split; assumption.
    + edestruct (IH (mkResult
                  (mkBase true run mo (Some out) (Some (err +:+ text)) true
                          es fs ss us) bd cs ls od osx)
                  out (err +:+ text))
        as (self' & E & Hin2 & Hbd & Hcs & Ho & He); try reflexivity.
      { unfold in_test in *. cbn in *. exact Hin. }
      exists self'. cbn in *. unfold mbind, M_bind. cbn.
      rewrite E, <- str_append_assoc. repeat split; assumption.
Qed.


(** Stop of a test whose contexts and buffers are given explicitly. *)
Lemma stopTest_eq (test : TestCase) run mo out err es fs ss us
    (tc suite root : Context) doc cs ls od osx :
  stopTest test
    (mkResult (mkBase true run mo (Some out) (Some err) true es fs ss us)
              (mkBuilder [tc; suite; root] doc) cs ls od osx)
  = (mkResult (mkBase true run false (Some "") (Some "") false es fs ss us)
       (mkBuilder
          [add_child
             (close (bump "tests"
                (add_children (output_leaf "system-out" out
                                 ++ output_leaf "system-err" err) tc)))
             (bump "tests" suite);
           bump "tests" root] doc)
       (cs ++ output_call "system-out" out ++ output_call "system-err" err
           ++ [IncrementCounter "tests"; EndContext])
       ls od osx, Ok tt).
Proof.
  unfold stopTest, mbind, M_bind, getvalue, super_try, output_leaf,
    output_call.
  cbn [base _stdout_buffer _stderr_buffer base_stopTest _restoreStdout
       buffer].
  destruct (truthy out) eqn:Eout, (truthy err) eqn:Eerr;
    unfold invoke, mret, M_ret;
    cbn [perform _builder stack document base calls _last_suite out_dir
         out_suffix append_cdata_section append increment_counter
         end_context map cdata_body];
    rewrite ?Eout, ?Eerr;
    cbn [map app];
    unfold add_children, add_child, bump, close;
    cbn [ctx_tag ctx_name ctx_counters ctx_children];
    rewrite <- ?app_assoc, ?app_nil_r; cbn [app].
  all: reflexivity.
Qed.

(** A test stop while a test is running succeeds: it attaches what the
    buffers held when it was called, counts the test on every open context,
    closes the testcase into the suite, and leaves the buffers empty. *)
Lemma stopTest_spec (self : XMLTestResult) (test : TestCase) :
  in_test self = true ->
  exists tc suite root out err self',
    stack (_builder self) = [tc; suite; root]
    /\ _stdout_buffer (base self) = Some out
    /\ _stderr_buffer (base self) = Some err
    /\ stopTest test self = (self', Ok tt)
    /\ calls self'
       = (calls self ++ output_call "system-out" out
            ++ output_call "system-err" err
            ++ [IncrementCounter "tests"; EndContext])%list
    /\ between_tests self' = true
    /\ _stdout_buffer (base self') = Some ""
    /\ _stderr_buffer (base self') = Some ""
    /\ open_suite self' = Some (ctx_name suite)
    /\ exists tc' suite' root',
         stack (_builder self') = [suite'; root']
         /\ ctx_children suite' = (ctx_children suite ++ [close tc'])%list
         /\ ctx_children root' = ctx_children root
         /\ ctx_tag tc' = "testcase"
         /\ ctx_name tc' = ctx_name tc
         /\ ctx_children tc'
            = (ctx_children tc ++ output_leaf "system-out" out
                 ++ output_leaf "system-err" err)%list
         /\ incremented "tests" tc tc'
         /\ incremented "tests" suite suite'
         /\ incremented "tests" root root'.
Proof.
  intros H. open_test self H.
  destruct b as [bf run mo so se rd es fs ss us]. cbn in * |-. subst.
  do 6 eexists. do 3 (split; [reflexivity|]).
  rewrite stopTest_eq. split; [reflexivity|].
  split; [reflexivity|]. split.
  { unfold between_tests, stack_between.
    cbn [base _builder stack _last_suite buffer redirected buffers_empty
         _stdout_buffer _stderr_buffer add_child bump ctx_tag ctx_name].
    rewrite Hkey, !String.eqb_refl. reflexivity. }
  do 3 (split; [reflexivity|]).
  do 3 eexists. split; [reflexivity|].
  do 5 (split; [reflexivity|]).
  repeat split; auto with listener.
  intros n. rewrite counter_bump. reflexivity.
Qed.

(** A listener that has just been constructed, once the run has started,
    is between two tests. *)
Lemma init_then_start_is_between_tests
    (now : struct_time) (stream : option nat) (descriptions : option bool)
    (verbosity : option nat) (od : target) (sfx : option string)
    (self : XMLTestResult) :
  __init__ now stream descriptions verbosity od sfx = Ok self ->
  buffer (base self) = true
  /\ calls self = []
  /\ _builder self = new_builder
  /\ out_dir self = od
  /\ startTestRun self
     = (mkResult (base self)
                 (mkBuilder [mkContext "testsuites" "TestSuites"
                                       zero_counters []] None)
                 [BeginContext "testsuites" "TestSuites"] None od
                 (out_suffix self), Ok tt)
  /\ between_tests (startTestRun self).1 = true.
Proof.
  unfold __init__. intros H.
  destruct (truthy_opt sfx);
    [destruct (str_format _ _) as [suffix|e]; [|discriminate]|];
    injection H as <-; repeat split.
Qed.

(** One whole test, from start to stop, with what its body writes. *)
Lemma test_cycle_spec (self : XMLTestResult) (test : TestCase)
    (body : list output) :
  between_tests self = true ->
  exists self',
    (startTest test;; emit body;; stopTest test) self = (self', Ok tt)
    /\ calls self'
       = (calls self ++ expected_start_calls self test
            ++ output_call "system-out" (written_out body)
            ++ output_call "system-err" (written_err body)
            ++ [IncrementCounter "tests"; EndContext])%list
    /\ between_tests self' = true
    /\ open_suite self' = Some (strclass test).
Proof.
  intros H.
  destruct (startTest_spec self test H)
    as (s1 & tc & suite & root & E1 & C1 & I1 & O1 & R1 & S1 & _ & _ & N1).
  destruct (emit_spec body s1 "" "" I1 O1 R1)
    as (s2 & E2 & I2 & B2 & C2 & O2 & R2).
  destruct (stopTest_spec s2 test I2)
    as (tc' & suite' & root' & out & err & s3 & S2 & O3 & R3 & E3 & C3 & I3
        & _ & _ & P3 & _).
  exists s3. unfold mbind, M_bind. rewrite E1, E2, E3.
  rewrite B2, S1 in S2. injection S2 as <- <- <-.
  rewrite O2 in O3. rewrite R2 in R3.
  injection O3 as <-. injection R3 as <-.
  change ("" +:+ written_out body) with (written_out body) in C3.
  change ("" +:+ written_err body) with (written_err body) in C3.
  rewrite C3, C2, C1, N1 in *. rewrite <- !app_assoc.
  repeat split; assumption.
Qed.

(** C6. For every test stop while a test is running, the listener appends a
    [system-out] CDATA leaf holding the captured standard output if and only
    if that capture is not empty, then a [system-err] CDATA leaf for the
    captured standard error under the same condition, then increments the
    [tests] counter, which grows by one on the testcase, on the open suite
    and on the root, and then closes the testcase context, which becomes the
    last child of the suite. *)
Theorem stopTest_flushes_counts_and_closes (self : XMLTestResult)
    (test : TestCase) :
  in_test self = true ->
  exists tc suite root out err self',
    stack (_builder self) = [tc; suite; root]
    /\ _stdout_buffer (base self) = Some out
    /\ _stderr_buffer (base self) = Some err
    /\ stopTest test self = (self', Ok tt)
    /\ calls self'
       = (calls self ++ output_call "system-out" out
            ++ output_call "system-err" err
            ++ [IncrementCounter "tests"; EndContext])%list
    /\ exists tc' suite' root',
         stack (_builder self') = [suite'; root']
         /\ ctx_children suite' = (ctx_children suite ++ [close tc'])%list
         /\ ctx_children root' = ctx_children root
         /\ ctx_tag tc' = "testcase"
         /\ ctx_name tc' = ctx_name tc
         /\ ctx_children tc'
            = (ctx_children tc ++ output_leaf "system-out" out
                 ++ output_leaf "system-err" err)%list
         /\ incremented "tests" tc tc'
         /\ incremented "tests" suite suite'
         /\ incremented "tests" root root'.
Proof.
  intros H.
  destruct (stopTest_spec self test H)
    as (tc & suite & root & out & err & self' & S & O & R & E & C & _ & _
        & _ & _ & Hshape).
  exists tc, suite, root, out, err, self'. auto 10.
Qed.

Lemma stopTest_flushes_counts_and_closes_witness :
  in_test running = true
  /\ (stopTest test_a running).2 = Ok tt.
Proof.
  split; [reflexivity|].
  destruct (stopTest_flushes_counts_and_closes running test_a eq_refl)
    as (tc & suite & root & out & err & self' & _ & _ & _ & E & _).
  rewrite E. reflexivity.
Defined.

(** C3. For every test that starts between two tests of a started run, a
    [testsuite] context is opened exactly when no suite is open yet or the
    module-qualified class name of the test differs from the key of the
    suite that is open, the open suite, if any, being closed first; then a
    [testcase] context is opened, named by the first line of the docstring
    of the test or, if there is none, by its method name.  In particular a
    test that follows a test of the same class opens no suite: the two
    share one testsuite context. *)
Theorem startTest_groups_by_class (self : XMLTestResult) (test : TestCase) :
  between_tests self = true ->
  exists self' tc suite root,
    startTest test self = (self', Ok tt)
    /\ calls self' = (calls self ++ expected_start_calls self test)%list
    /\ stack (_builder self') = [tc; suite; root]
    /\ ctx_tag tc = "testcase"
    /\ ctx_name tc = description test
    /\ ctx_tag suite = "testsuite"
    /\ ctx_name suite = strclass test
    /\ forall (body : list output) (next : TestCase),
         strclass next = strclass test ->
         exists stopped started,
           (emit body;; stopTest test) self' = (stopped, Ok tt)
           /\ startTest next stopped = (started, Ok tt)
           /\ calls started
              = (calls stopped
                   ++ [BeginContext "testcase" (description next)])%list.
Proof.
  intros H.
  destruct (startTest_spec self test H)
    as (s1 & tc & suite & root & E1 & C1 & I1 & O1 & R1 & S1 & T1 & G1 & N1).
  exists s1, tc, suite, root. subst tc.
  do 7 (split; [assumption || reflexivity|]).
  intros body next Hsame.
  destruct (emit_spec body s1 "" "" I1 O1 R1)
    as (s2 & E2 & I2 & B2 & C2 & _ & _).
  destruct (stopTest_spec s2 test I2)
    as (tc' & suite' & root' & out & err & s3 & S2 & _ & _ & E3 & _ & I3
        & _ & _ & P3 & _).
  destruct (startTest_spec s3 next I3)
    as (s4 & tc4 & suite4 & root4 & E4 & C4 & _).
  exists s3, s4. unfold mbind, M_bind. rewrite E2, E3.
  do 2 (split; [reflexivity || assumption|]).
  rewrite C4. f_equal.
  unfold expected_start_calls, new_suite_due. rewrite P3.
  rewrite B2, S1 in S2. injection S2 as _ <- _.
  rewrite N1, Hsame, String.eqb_refl. reflexivity.
Qed.

Lemma startTest_groups_by_class_witness :
  between_tests started = true
  /\ calls (startTest test_a started).1
     = [BeginContext "testsuites" "TestSuites";
        BeginContext "testsuite" "pkg.Foo";
        BeginContext "testcase" "test_a"].
Proof.
  split; [reflexivity|].
  destruct (startTest_groups_by_class started test_a eq_refl)
    as (self' & tc & suite & root & E & C & _).
  rewrite E. exact C.
Defined.

(** C10. Whatever arguments the listener is constructed with, its [buffer]
    flag is set.  A test stop attaches the contents that the two buffers
    held when it was called, and leaves both buffers empty: they are read
    before the base class resets them.  Hence over one whole test, from a
    state between two tests, what is attached is exactly what the test wrote
    to the two streams, and the state reached is again between two tests
    with empty buffers, so nothing is carried over to a later testcase. *)
Theorem output_is_buffered_per_test :
  (forall (now : struct_time) (stream : option nat)
          (descriptions : option bool) (verbosity : option nat)
          (od : target) (sfx : option string) (self : XMLTestResult),
      __init__ now stream descriptions verbosity od sfx = Ok self ->
      buffer (base self) = true
      /\ between_tests (startTestRun self).1 = true)
  /\ (forall (self : XMLTestResult) (test : TestCase),
         in_test self = true ->
         exists out err self',
           _stdout_buffer (base self) = Some out
           /\ _stderr_buffer (base self) = Some err
           /\ stopTest test self = (self', Ok tt)
           /\ calls self'
              = (calls self ++ output_call "system-out" out
                   ++ output_call "system-err" err
                   ++ [IncrementCounter "tests"; EndContext])%list
           /\ _stdout_buffer (base self') = Some ""
           /\ _stderr_buffer (base self') = Some "")
  /\ (forall (self : XMLTestResult) (test : TestCase) (body : list output),
         between_tests self = true ->
         exists self',
           (startTest test;; emit body;; stopTest test) self = (self', Ok tt)
           /\ calls self'
              = (calls self ++ expected_start_calls self test
                   ++ output_call "system-out" (written_out body)
                   ++ output_call "system-err" (written_err body)
                   ++ [IncrementCounter "tests"; EndContext])%list
           /\ between_tests self' = true
           /\ buffers_empty (base self') = true).
Proof.
  split; [|split].
  - intros now stream descriptions verbosity od sfx self H.
    apply init_then_start_is_between_tests in H. tauto.
  - intros self test H.
    destruct (stopTest_spec self test H)
      as (tc & suite & root & out & err & self' & _ & O & R & E & C & _ & O'
          & R' & _).
    exists out, err, self'. auto 10.
  - intros self test body H.
    destruct (test_cycle_spec self test body H) as (self' & E & C & I & _).
    exists self'. repeat split; try assumption.
    now apply between_tests_inv in I.
Qed.

Lemma output_is_buffered_per_test_witness :
  between_tests started = true
  /\ calls ((startTest test_a;; emit [Out "hello"; Err "oops"; Out "!"];;
             stopTest test_a) started).1
     = [BeginContext "testsuites" "TestSuites";
        BeginContext "testsuite" "pkg.Foo";
        BeginContext "testcase" "test_a";
        AppendCdataSection "system-out" "hello!";
        AppendCdataSection "system-err" "oops";
        IncrementCounter "tests"; EndContext].
Proof.
  split; [reflexivity|].
  destruct output_is_buffered_per_test as (_ & _ & H).
  destruct (H started test_a [Out "hello"; Err "oops"; Out "!"] eq_refl)
    as (self' & E & C & _).
  rewrite E. exact C.
Defined.

(** *** Names and timestamps *)

(** The template of the report name, filled in: its fourth argument, the
    suffix, is the one that is used, and the third is not. *)
Lemma report_filename (dir separator unused suffix : string) :
  str_format "{0}{1}TESTS-TestSuites-{3}.xml"
             [dir; separator; unused; suffix]
  = Ok (report_name dir separator suffix).
Proof. reflexivity. Qed.

Lemma format_brace_free (mode : numbering) (args : list string) (s : string) :
  brace_free s = true -> format_go mode None args s = Ok s.
Proof.
  induction s as [|c rest IH]; [reflexivity|].
  cbn [brace_free]. intros H. apply andb_prop in H as [Hc Hrest].
  unfold not_brace in Hc. apply andb_prop in Hc as [Ho Hcl].
  apply negb_true_iff in Ho, Hcl.
  cbn [format_go]. rewrite Ho, Hcl, (IH Hrest). reflexivity.
Qed.

(** A template made of text without braces around one [{0}] placeholder
    has the placeholder replaced by the argument. *)
Lemma str_format_placeholder (pre post arg : string) :
  brace_free pre = true -> brace_free post = true ->
  str_format (pre +:+ "{0}" +:+ post) [arg] = Ok (pre +:+ arg +:+ post).
Proof.
  intros Hpre Hpost. unfold str_format.
  induction pre as [|c pre IH].
  - change ("" +:+ "{0}" +:+ post)
      with (String "{" (String "0" (String "}" post))).
    cbn [format_go Ascii.eqb Bool.eqb resolve_field String.eqb all_digits
         is_digit nat_of_ascii digits_value nth_error].
    change (resolve_field Unnumbered ("" +:+ "0") [arg])
      with (Ok (arg, Manual) : result (string * numbering)).
    cbn iota. rewrite (format_brace_free Manual [arg] post Hpost).
    reflexivity.
  - cbn [brace_free] in Hpre. apply andb_prop in Hpre as [Hc Hrest].
    unfold not_brace in Hc. apply andb_prop in Hc as [Ho Hcl].
    apply negb_true_iff in Ho, Hcl.
    change (String c pre +:+ "{0}" +:+ post)
      with (String c (pre +:+ "{0}" +:+ post)).
    cbn [format_go]. rewrite Ho, Hcl, (IH Hrest). reflexivity.
Qed.

Example str_format_my_suffix :
  str_format "my-suffix-{0}" ["20261103T090507"]
  = Ok "my-suffix-20261103T090507".
Proof. reflexivity. Qed.

Lemma timestamp_layout (now : struct_time) :
  _timestamp now
  = decimal (tm_year now) +:+ pad2 (tm_mon now) +:+ pad2 (tm_mday now)
      +:+ "T" +:+ pad2 (tm_hour now) +:+ pad2 (tm_min now)
      +:+ pad2 (tm_sec now).
Proof.
  unfold _timestamp. cbn [strftime Ascii.eqb Bool.eqb directive].
  rewrite str_append_nil_r. reflexivity.
Qed.

Lemma length_append (a b : string) :
  String.length (a +:+ b) = String.length a + String.length b.
Proof.
  induction a as [|x a IH]; [reflexivity|].
  rewrite str_append_cons. cbn [String.length]. now rewrite IH.
Qed.

Lemma pad2_length (n : nat) : n < 100 -> String.length (pad2 n) = 2.
Proof.
  intros H.
  assert (A : forallb (fun k => Nat.eqb (String.length (pad2 k)) 2)
                      (seq 0 100) = true) by (vm_compute; reflexivity).
  rewrite forallb_forall in A.
  apply Nat.eqb_eq, A, in_seq. lia.
Qed.

Lemma year_length (y : nat) :
  1000 <= y < 10 * 1000 -> String.length (decimal y) = 4.
Proof.
  intros H.
  assert (A : forallb (fun k => Nat.eqb (String.length (decimal k)) 4)
                      (seq 1000 (9 * 1000)) = true)
    by (vm_compute; reflexivity).
  rewrite forallb_forall in A.
  apply Nat.eqb_eq, A, in_seq. lia.
Qed.

(** For a calendar time of a four-digit year the timestamp has the fifteen
    characters of [YYYYMMDDTHHMMSS]. *)
Lemma timestamp_length (now : struct_time) :
  1000 <= tm_year now < 10 * 1000 ->
  tm_mon now < 100 -> tm_mday now < 100 -> tm_hour now < 100 ->
  tm_min now < 100 -> tm_sec now < 100 ->
  String.length (_timestamp now) = 15.
Proof.
  intros Hy Hm Hd HH HM HS.
  rewrite timestamp_layout, !length_append, year_length, !pad2_length
    by assumption.
  reflexivity.
Qed.

(** *** The run stop *)

(** What [_generate_report] does, in terms of what [finish] returns. *)
Lemma generate_report_spec (os : os_state) (self : XMLTestResult) :
  exists self' os' r,
    stopTestRun os self = (self', os', r)
    /\ calls self' = (calls self ++ [Finish])%list
    /\ base self' = base self
    /\ sep os' = sep os
    /\ match finish (_builder self) with
       | Ok (doc, b) =>
           r = Ok tt /\ _builder self' = b
           /\ match out_dir self with
              | Directory dir =>
                  files os'
                  = <[report_name dir (sep os) (out_suffix self) := [doc]]>
                      (files os)
                  /\ streams os' = streams os
              | Stream handle =>
                  files os' = files os
                  /\ streams os'
                     = <[handle := (default [] (streams os !! handle)
                                      ++ [doc])%list]> (streams os)
              end
       | Raise e =>
           r = Raise e /\ _builder self' = _builder self
           /\ streams os' = streams os
           /\ match out_dir self with
              | Directory dir =>
                  files os'
                  = <[report_name dir (sep os) (out_suffix self) := []]>
                      (files os)
              | Stream _ => files os' = files os
              end
       end
    /\ match out_dir self with
       | Directory dir =>
           dirs os' = (if path_exists dir os then dirs os
                       else {[ dir ]} ∪ dirs os)
       | Stream _ => dirs os' = dirs os
       end.
Proof.
  unfold stopTestRun, _generate_report, invoke_finish.
  destruct (out_dir self) as [dir|handle].
  - rewrite report_filename.
    destruct (finish (_builder self)) as [[doc b]|e];
      do 3 eexists; (split; [reflexivity|]); cbn;
      repeat split; try (now destruct (path_exists dir os)).
    destruct (path_exists dir os); cbn;
      now rewrite lookup_insert_eq, insert_insert_eq.
  - destruct (finish (_builder self)) as [[doc b]|e];
      do 3 eexists; (split; [reflexivity|]); cbn; repeat split.
Qed.

(** C1, as amended. At run stop the listener makes exactly one call on the
    builder, [finish], and no [end_context] of its own, whether or not a
    suite is still open: closing what is open is left to [finish].  When
    [finish] returns a document it is written to the output target, and when
    it raises, the exception propagates and nothing is written. *)
Theorem stopTestRun_calls_finish_only (os : os_state)
    (self : XMLTestResult) :
  stop_calls os self = [Finish]
  /\ exists self' os' r,
       stopTestRun os self = (self', os', r)
       /\ calls self' = (calls self ++ [Finish])%list
       /\ match finish (_builder self) with
          | Ok (doc, b) =>
              r = Ok tt /\ _builder self' = b
              /\ match out_dir self with
                 | Directory dir =>
                     files os'
                       !! report_name dir (sep os) (out_suffix self)
                     = Some [doc]
                 | Stream handle =>
                     streams os' !! handle
                     = Some (default [] (streams os !! handle) ++ [doc])%list
                 end
          | Raise e =>
              r = Raise e /\ _builder self' = _builder self
              /\ streams os' = streams os
          end.
Proof.
  destruct (generate_report_spec os self)
    as (self' & os' & r & E & C & _ & _ & F & _).
  split.
  - unfold stop_calls. rewrite E. cbn [fst]. rewrite C.
    apply drop_app_length.
  - exists self', os', r. do 2 (split; [assumption|]).
    destruct (finish (_builder self)) as [[doc b]|e].
    + destruct F as (-> & -> & F). do 2 (split; [reflexivity|]).
      destruct (out_dir self); destruct F as [F1 F2].
      * rewrite F1. apply lookup_insert_eq.
      * rewrite F2. apply lookup_insert_eq.
    + destruct F as (-> & -> & -> & _). auto.
Qed.

(** C1, as stated, fails: after one complete test the suite [pkg.Foo] is
    still open, and the run stop issues [finish] alone. *)
Lemma stopTestRun_does_not_close_suite :
  open_suite one_test_run = Some "pkg.Foo"
  /\ stop_calls empty_os one_test_run = [Finish]
  /\ ~ stop_closes_open_suite empty_os one_test_run.
Proof.
  split; [reflexivity|]. split; [reflexivity|].
  intros H. destruct H as (before & after & E).
  - exists "pkg.Foo". reflexivity.
  - change (stop_calls empty_os one_test_run) with [Finish] in E.
    destruct before as [|c before]; [discriminate|].
    injection E as _ E. destruct before; discriminate.
Qed.

(** C8. A listener that has just been constructed, started and stopped with
    no test in between, has made two calls on the builder: opening the root
    [testsuites] context and [finish].  [finish] closes the root and returns
    a [testsuites] document whose [tests] counter is 0 (as are all its
    counters) and which has no children; that document is what is written
    to the output target. *)
Theorem empty_run_yields_empty_document
    (now : struct_time) (stream : option nat) (descriptions : option bool)
    (verbosity : option nat) (od : target) (sfx : option string)
    (os : os_state) (self : XMLTestResult) :
  __init__ now stream descriptions verbosity od sfx = Ok self ->
  exists running stopped os' doc,
    startTestRun self = (running, Ok tt)
    /\ stopTestRun os running = (stopped, os', Ok tt)
    /\ calls stopped = [BeginContext "testsuites" "TestSuites"; Finish]
    /\ stack (_builder stopped) = []
    /\ document (_builder stopped) = Some doc
    /\ doc = Element "testsuites" "TestSuites" zero_counters []
    /\ node_counters doc !! "tests" = Some 0
    /\ (forall name, counter (node_counters doc) name = 0)
    /\ node_children doc = []
    /\ match od with
       | Directory dir =>
           files os' !! report_name dir (sep os) (out_suffix self)
           = Some [doc]
       | Stream handle =>
           streams os' !! handle
           = Some (default [] (streams os !! handle) ++ [doc])%list
       end.
Proof.
  intros H.
  apply init_then_start_is_between_tests in H
    as (_ & Hcalls & Hb & Hod & E & _).
  rewrite E.
  set (running := mkResult _ _ _ _ _ _).
  destruct (generate_report_spec os running)
    as (stopped & os' & r & E' & C & _ & _ & F & _).
  change (finish (_builder running))
    with (Ok (Element "testsuites" "TestSuites" zero_counters [],
              mkBuilder [] (Some (Element "testsuites" "TestSuites"
                                          zero_counters [])))
          : result (node * XMLContextBuilder)) in F.
  destruct F as (-> & Hb' & F).
  exists running, stopped, os', (Element "testsuites" "TestSuites"
                                         zero_counters []).
  split; [reflexivity|]. split; [assumption|].
  split; [rewrite C; reflexivity|]. rewrite Hb'.
  do 4 (split; [reflexivity|]). split.
  { intros name. unfold counter, zero_counters. cbn [node_counters].
    repeat (rewrite lookup_insert; case_decide; [reflexivity|]).
    reflexivity. }
  split; [reflexivity|].
  change (out_dir running) with od in F.
  change (out_suffix running) with (out_suffix self) in F.
  destruct od; destruct F as [F1 F2].
  - rewrite F1. apply lookup_insert_eq.
  - rewrite F2. apply lookup_insert_eq.
Qed.

Lemma empty_run_yields_empty_document_witness :
  __init__ clock None None None (Directory "out") None = Ok fresh
  /\ calls (stopTestRun empty_os (startTestRun fresh).1).1.1
     = [BeginContext "testsuites" "TestSuites"; Finish].
Proof.
  split; [reflexivity|].
  destruct (empty_run_yields_empty_document clock None None None
              (Directory "out") None empty_os fresh eq_refl)
    as (running & stopped & os' & doc & E1 & E2 & C & _).
  rewrite E1. cbn [fst]. rewrite E2. exact C.
Defined.

Lemma placeholder_template_truthy (pre post : string) :
  truthy (pre +:+ "{0}" +:+ post) = true.
Proof. destruct pre; reflexivity. Qed.

(** C7. The suffix of the report name is the raw timestamp when no template
    is given, and the template with its placeholder replaced by the timestamp
    otherwise; the timestamp, read when the listener is constructed, is laid
    out as year, month, day, [T], hour, minute, second, fifteen characters
    for a four-digit year.  When the output target is a directory path, the
    directory is created if nothing exists at that path, the file
    [<dir><sep>TESTS-TestSuites-<suffix>.xml] is opened for writing, and the
    document returned by [finish] is written to it; no stream is touched.
    When the target is an open stream, the document is written to that
    stream and neither directories nor files change. *)
Theorem report_is_written_to_named_file_or_stream :
  (forall (now : struct_time),
      _timestamp now
      = decimal (tm_year now) +:+ pad2 (tm_mon now) +:+ pad2 (tm_mday now)
          +:+ "T" +:+ pad2 (tm_hour now) +:+ pad2 (tm_min now)
          +:+ pad2 (tm_sec now)
      /\ (1000 <= tm_year now < 10 * 1000 ->
          tm_mon now < 100 -> tm_mday now < 100 -> tm_hour now < 100 ->
          tm_min now < 100 -> tm_sec now < 100 ->
          String.length (_timestamp now) = 15))
  /\ (forall now stream descriptions verbosity od,
         exists self,
           __init__ now stream descriptions verbosity od None = Ok self
           /\ out_dir self = od
           /\ out_suffix self = _timestamp now)
  /\ (forall now stream descriptions verbosity od (pre post : string),
         brace_free pre = true -> brace_free post = true ->
         exists self,
           __init__ now stream descriptions verbosity od
                    (Some (pre +:+ "{0}" +:+ post)) = Ok self
           /\ out_dir self = od
           /\ out_suffix self = pre +:+ _timestamp now +:+ post)
  /\ (forall (os : os_state) (self : XMLTestResult) (dir : string),
         out_dir self = Directory dir ->
         exists self' os' r,
           stopTestRun os self = (self', os', r)
           /\ dirs os' = (if path_exists dir os then dirs os
                          else {[ dir ]} ∪ dirs os)
           /\ streams os' = streams os
           /\ match finish (_builder self) with
              | Ok (doc, _) =>
                  r = Ok tt
                  /\ files os'
                     = <[report_name dir (sep os) (out_suffix self)
                           := [doc]]> (files os)
              | Raise e =>
                  r = Raise e
                  /\ files os'
                     = <[report_name dir (sep os) (out_suffix self)
                           := []]> (files os)
              end)
  /\ (forall (os : os_state) (self : XMLTestResult) (handle : nat),
         out_dir self = Stream handle ->
         exists self' os' r,
           stopTestRun os self = (self', os', r)
           /\ dirs os' = dirs os
           /\ files os' = files os
           /\ match finish (_builder self) with
              | Ok (doc, _) =>
                  r = Ok tt
                  /\ streams os'
                     = <[handle := (default [] (streams os !! handle)
                                      ++ [doc])%list]> (streams os)
              | Raise e => r = Raise e /\ streams os' = streams os
              end).
Proof.
  split; [|split; [|split; [|split]]].
  - intros now. split; [apply timestamp_layout | apply timestamp_length].
  - intros now stream descriptions verbosity od. eexists.
    split; [reflexivity|]. split; reflexivity.
  - intros now stream descriptions verbosity od pre post Hpre Hpost.
    unfold __init__. cbn [truthy_opt default].
    rewrite placeholder_template_truthy.
    rewrite (str_format_placeholder pre post _ Hpre Hpost).
    eexists. split; [reflexivity|]. split; reflexivity.
  - intros os self dir Hdir.
    destruct (generate_report_spec os self)
      as (self' & os' & r & E & _ & _ & _ & F & D).
    rewrite Hdir in F, D. exists self', os', r.
    split; [assumption|]. split; [assumption|].
    destruct (finish (_builder self)) as [[doc b]|e].
    + destruct F as (-> & _ & -> & ->). auto.
    + destruct F as (-> & _ & -> & ->). auto.
  - intros os self handle Hstream.
    destruct (generate_report_spec os self)
      as (self' & os' & r & E & _ & _ & _ & F & D).
    rewrite Hstream in F, D. exists self', os', r.
    split; [assumption|]. split; [assumption|].
    destruct (finish (_builder self)) as [[doc b]|e].
    + destruct F as (-> & _ & -> & ->). auto.
    + destruct F as (-> & _ & -> & ->). auto.
Qed.

Lemma report_is_written_to_named_file_or_stream_witness :
  out_dir started = Directory "out"
  /\ path_exists "out" empty_os = false
  /\ elements (dirs (stopTestRun empty_os started).1.2) = ["out"]
  /\ (files (stopTestRun empty_os started).1.2
        !! "out/TESTS-TestSuites-20261103T090507.xml")
     = Some [Element "testsuites" "TestSuites" zero_counters []].
Proof.
  split; [reflexivity|]. split; [reflexivity|].
  destruct report_is_written_to_named_file_or_stream
    as (_ & _ & _ & H & _).
  destruct (H empty_os started "out" eq_refl)
    as (self' & os' & r & E & D & _ & F).
  rewrite E. cbn [fst snd].
  change (finish (_builder started))
    with (Ok (Element "testsuites" "TestSuites" zero_counters [],
              mkBuilder [] (Some (Element "testsuites" "TestSuites"
                                          zero_counters [])))
          : result (node * XMLContextBuilder)) in F.
  destruct F as [_ F]. rewrite D, F. split.
  - vm_compute. reflexivity.
  - apply lookup_insert_eq.
Defined.

Example suffix_from_template :
  out_suffix <$> (match __init__ clock None None None (Directory "out")
                                 (Some "my-suffix-{0}") with
                  | Ok self => Some self
                  | Raise _ => None
                  end)
  = Some "my-suffix-20261103T090507".
Proof. reflexivity. Qed.

(** *** Whole runs *)

Lemma truthy_nonempty (s : string) : truthy s = true -> s <> "".
Proof. intros H ->. discriminate. Qed.

(** *** Reports, one by one *)

Lemma addSkip_eq (test : TestCase) (reason : string) (b : TestResult)
    (tc : Context) (rest : list Context) doc cs ls od osx :
  addSkip test reason
    (mkResult b (mkBuilder (tc :: rest) doc) cs ls od osx)
  = (mkResult (base_addSkip test reason b)
       (mkBuilder
          (add_child (Leaf "skipped" None [("message", reason)])
                     (bump "skipped" tc)
           :: map (bump "skipped") rest) doc)
       (cs ++ [IncrementCounter "skipped";
               Append "skipped" None [("message", reason)]])
       ls od osx, Ok tt).
Proof.
  unfold addSkip, mbind, M_bind, super, invoke.
  cbn [perform _builder stack document base calls _last_suite out_dir
       out_suffix increment_counter append map cdata_body].
  now rewrite <- app_assoc.
Qed.

Lemma add_generic_failure_eq
    (tbf : TestResult -> exc_info -> TestCase -> string)
    (test : TestCase) (err : option exc_info) (b : TestResult)
    (tc : Context) (rest : list Context) doc cs ls od osx
    (line : string) (more : list string) :
  match err with
  | Some e => splitlines (value_str e) = line :: more
  | None => True
  end ->
  let cdata := match err with
               | Some e => Some (tbf b e test)
               | None => None
               end in
  let attrs := match err with
               | Some e => [("message", line); ("type", exctype_name e)]
               | None => [("message", "Unexpected success")]
               end in
  _add_generic_failure tbf test err
    (mkResult b (mkBuilder (tc :: rest) doc) cs ls od osx)
  = (mkResult b
       (mkBuilder
          (add_child (Leaf "failure" (cdata_body cdata) attrs)
                     (bump "failures" tc)
           :: map (bump "failures") rest) doc)
       (cs ++ [IncrementCounter "failures"; Append "failure" cdata attrs])
       ls od osx, Ok tt).
Proof.
  intros E cdata attrs.
  unfold _add_generic_failure, mbind, M_bind. unfold invoke at 1.
  cbn [perform _builder stack document base calls _last_suite out_dir
       out_suffix increment_counter map].
  destruct err as [e|]; subst cdata attrs.
  - rewrite (append_error_data_with_line _ _ _ _ _ _ _ E).
    unfold invoke.
    cbn [perform _builder stack document base calls _last_suite out_dir
         out_suffix append].
    now rewrite <- app_assoc.
  - unfold _append_error_data, invoke.
    cbn [perform _builder stack document base calls _last_suite out_dir
         out_suffix append].
    now rewrite <- app_assoc.
Qed.

Lemma addError_eq
    (tbf : TestResult -> exc_info -> TestCase -> string)
    (test : TestCase) (e : exc_info) (b : TestResult)
    (tc : Context) (rest : list Context) doc cs ls od osx
    (line : string) (more : list string) :
  splitlines (value_str e) = line :: more ->
  let b' := base_addError test (tbf b e test) b in
  let cdata := Some (tbf b' e test) in
  let attrs := [("message", line); ("type", exctype_name e)] in
  addError tbf test e
    (mkResult b (mkBuilder (tc :: rest) doc) cs ls od osx)
  = (mkResult b'
       (mkBuilder
          (add_child (Leaf "error" (cdata_body cdata) attrs)
                     (bump "errors" tc)
           :: map (bump "errors") rest) doc)
       (cs ++ [IncrementCounter "errors"; Append "error" cdata attrs])
       ls od osx, Ok tt).
Proof.
  intros E b' cdata attrs. subst b' cdata attrs.
  unfold addError, mbind, M_bind, get, super.
  cbn [base _builder calls _last_suite out_dir out_suffix].
  unfold invoke at 1.
  cbn [perform _builder stack document base calls _last_suite out_dir
       out_suffix increment_counter map].
  rewrite (append_error_data_with_line _ _ _ _ _ _ _ E).
  unfold invoke.
  cbn [perform _builder stack document base calls _last_suite out_dir
       out_suffix append].
  now rewrite <- app_assoc.
Qed.

Lemma count_calls_app (p : call -> bool) (a b : list call) :
  count_calls p (a ++ b) = count_calls p a + count_calls p b.
Proof.
  induction a as [|c a IH]; [reflexivity|].
  cbn [app count_calls]. rewrite IH. lia.
Qed.

(** While a test is running, the key of the suite is [_last_suite] and the
    root is the third context. *)
Lemma in_test_stack (self : XMLTestResult) :
  in_test self = true ->
  exists tc suite root,
    stack (_builder self) = [tc; suite; root]
    /\ _last_suite self = Some (ctx_name suite).
Proof.
  intros H. apply in_test_inv in H as (_ & _ & _ & H).
  apply stack_in_test_inv in H
    as (name & tcs & tch & key & scs & sch & rname & rcs & rch & E & L & _).
  do 3 eexists. split; [exact E | exact L].
Qed.

(** The report of one event while a test is running: it succeeds, the test
    is still running under the same suite, no context is opened or closed,
    and the counter of the event, if it has one, is incremented once. *)
Lemma report_spec (tbf : TestResult -> exc_info -> TestCase -> string)
    (self : XMLTestResult) (test : TestCase) (ev : event) :
  in_test self = true ->
  reportable ev = true ->
  exists self' new,
    report tbf test ev self = (self', Ok tt)
    /\ in_test self' = true
    /\ _last_suite self' = _last_suite self
    /\ calls self' = calls self ++ new
    /\ (forall n, count_calls (is_increment n) new
                  = if counts_for n ev then 1 else 0)
    /\ (forall tag, count_calls (is_begin tag) new = 0)
    /\ count_calls is_end new = 0
    /\ (forall n, root_counter self' n
                  = root_counter self n + if counts_for n ev then 1 else 0).
Proof.
  intros H Hev. open_test self H.
  assert (Hin : forall b' tc' suite' root' cs',
             buffer b' = true -> redirected b' = true ->
             is_Some (_stdout_buffer b') -> is_Some (_stderr_buffer b') ->
             ctx_tag tc' = "testcase" -> ctx_tag suite' = "testsuite" ->
             ctx_name suite' = key -> ctx_tag root' = "testsuites" ->
             in_test (mkResult b' (mkBuilder [tc'; suite'; root'] doc) cs'
                               (Some key) od osx) = true).
  { intros b' tc' suite' root' cs' Hb Hr Ho He Htc Hsu Hna Hro.
    unfold in_test, stack_in_test.
    cbn [base _builder stack _last_suite].
    rewrite Hb, Hr, Htc, Hsu, Hna, Hro, Hkey, !String.eqb_refl.
    rewrite !bool_decide_eq_true_2 by assumption. reflexivity. }
  destruct b as [bf run mo so se rd es fs ss us]. cbn in * |-. subst.
  destruct ev as [[text|text]|reason|e|e|]; cbn [report emit1].
  - exists
      (mkResult (mkBase true run mo (Some (out +:+ text)) (Some err) true
                        es fs ss us)
                (mkBuilder [mkContext "testcase" name tcs tch;
                            mkContext "testsuite" key scs sch;
                            mkContext "testsuites" rname rcs rch] doc)
                cs (Some key) od osx), [].
    split; [reflexivity|]. split; [apply Hin; eauto|].
    split; [reflexivity|]. split; [symmetry; apply app_nil_r|].
    repeat split; intros; unfold root_counter; cbn; lia.
  - exists
      (mkResult (mkBase true run mo (Some out) (Some (err +:+ text)) true
                        es fs ss us)
                (mkBuilder [mkContext "testcase" name tcs tch;
                            mkContext "testsuite" key scs sch;
                            mkContext "testsuites" rname rcs rch] doc)
                cs (Some key) od osx), [].
    split; [reflexivity|]. split; [apply Hin; eauto|].
    split; [reflexivity|]. split; [symmetry; apply app_nil_r|].
    repeat split; intros; unfold root_counter; cbn; lia.
  - rewrite addSkip_eq. do 2 eexists. split; [reflexivity|].
    split; [apply Hin; eauto|]. split; [reflexivity|].
    split; [reflexivity|].
    repeat split; intros; unfold root_counter, counts_for;
      cbn [count_calls is_increment is_begin is_end event_counter
           _builder stack map last];
      rewrite ?counter_bump; try destruct (String.eqb _ _); lia.
  - cbn [reportable] in Hev. apply truthy_nonempty in Hev.
    destruct (splitlines_first_line _ Hev) as (line & more & E).
    rewrite (addError_eq _ _ _ _ _ _ _ _ _ _ _ _ _ E).
    do 2 eexists. split; [reflexivity|].
    split; [apply Hin; eauto|]. split; [reflexivity|].
    split; [reflexivity|].
    repeat split; intros; unfold root_counter, counts_for;
      cbn [count_calls is_increment is_begin is_end event_counter
           _builder stack map last];
      rewrite ?counter_bump; try destruct (String.eqb _ _); lia.
  - cbn [reportable] in Hev. apply truthy_nonempty in Hev.
    destruct (splitlines_first_line _ Hev) as (line & more & E).
    unfold addFailure, mbind, M_bind, get, super.
    cbn [base _builder calls _last_suite out_dir out_suffix].
    rewrite (add_generic_failure_eq tbf test (Some e) _ _ _ _ _ _ _ _
               line more E).
    do 2 eexists. split; [reflexivity|].
    split; [apply Hin; eauto|]. split; [reflexivity|].
    split; [reflexivity|].
    repeat split; intros; unfold root_counter, counts_for;
      cbn [count_calls is_increment is_begin is_end event_counter
           _builder stack map last];
      rewrite ?counter_bump; try destruct (String.eqb _ _); lia.
  - unfold addUnexpectedSuccess, mbind, M_bind, super.
    cbn [base _builder calls _last_suite out_dir out_suffix].
    rewrite (add_generic_failure_eq tbf test None _ _ _ _ _ _ _ _
               "" [] I).
    do 2 eexists. split; [reflexivity|].
    split; [apply Hin; eauto|]. split; [reflexivity|].
    split; [reflexivity|].
    repeat split; intros; unfold root_counter, counts_for;
      cbn [count_calls is_increment is_begin is_end event_counter
           _builder stack map last];
      rewrite ?counter_bump; try destruct (String.eqb _ _); lia.
Qed.

(** The reports of all the events of one test. *)
Lemma reports_spec (tbf : TestResult -> exc_info -> TestCase -> string)
    (test : TestCase) (evs : list event) :
  forall self,
    in_test self = true ->
    forallb reportable evs = true ->
    exists self' new,
      reports tbf test evs self = (self', Ok tt)
      /\ in_test self' = true
      /\ _last_suite self' = _last_suite self
      /\ calls self' = calls self ++ new
      /\ (forall n, count_calls (is_increment n) new = count_events n evs)
      /\ (forall tag, count_calls (is_begin tag) new = 0)
      /\ count_calls is_end new = 0
      /\ (forall n, root_counter self' n
                    = root_counter self n + count_events n evs).
Proof.
  induction evs as [|ev evs IH]; intros self Hin Hall.
  - exists self, []. split; [reflexivity|]. split; [assumption|].
    split; [reflexivity|]. split; [symmetry; apply app_nil_r|].
    repeat split; intros; cbn [count_events count_calls]; lia.
  - cbn [forallb] in Hall. apply andb_prop in Hall as [Hev Hall].
    destruct (report_spec tbf self test ev Hin Hev)
      as (s1 & new1 & E1 & I1 & L1 & C1 & N1 & B1 & D1 & R1).
    destruct (IH s1 I1 Hall)
      as (s2 & new2 & E2 & I2 & L2 & C2 & N2 & B2 & D2 & R2).
    exists s2, (new1 ++ new2). cbn [reports]. unfold mbind, M_bind.
    rewrite E1, E2. split; [reflexivity|]. split; [assumption|].
    split; [congruence|]. split; [rewrite C2, C1; now rewrite app_assoc|].
    repeat split; intros; rewrite ?count_calls_app, ?N1, ?N2, ?B1, ?B2,
      ?D1, ?D2, ?R2, ?R1; cbn [count_events]; lia.
Qed.

(** What the calls of a test start count up to. *)
Lemma expected_start_calls_counts (self : XMLTestResult) (test : TestCase) :
  (forall n, count_calls (is_increment n) (expected_start_calls self test)
             = 0)
  /\ count_calls (is_begin "testcase") (expected_start_calls self test) = 1
  /\ count_calls (is_begin "testsuite") (expected_start_calls self test)
     = suite_changes (open_suite self) [test]
  /\ count_calls is_end (expected_start_calls self test)
     = suite_closes (open_suite self) [test].
Proof.
  unfold expected_start_calls, new_suite_due.
  cbn [suite_changes suite_closes].
  destruct (open_suite self) as [key|];
    [destruct (String.eqb key (strclass test))|];
    repeat split; intros; reflexivity.
Qed.

(** A test start does not touch the counters of the root. *)
Lemma startTest_root_counter (self : XMLTestResult) (test : TestCase)
    (n : string) :
  between_tests self = true ->
  root_counter (startTest test self).1 n = root_counter self n.
Proof.
  intros H. apply between_tests_inv in H as (_ & _ & _ & Hs).
  apply stack_between_inv in Hs
    as [(rname & rcs & rch & Hs & Hl)
       |(key & scs & sch & rname & rcs & rch & Hs & Hl & Hk)];
    destruct self as [b [st doc] cs ls od osx]; cbn in Hs, Hl; subst.
  - rewrite startTest_eq_first. reflexivity.
  - destruct (String.eqb_spec key (strclass test)) as [->|Hne].
    + rewrite startTest_eq_same. reflexivity.
    + rewrite startTest_eq_other by assumption. reflexivity.
Qed.

Lemma output_call_counts (tag text : string) :
  (forall n, count_calls (is_increment n) (output_call tag text) = 0)
  /\ (forall t, count_calls (is_begin t) (output_call tag text) = 0)
  /\ count_calls is_end (output_call tag text) = 0.
Proof.
  unfold output_call. destruct (truthy text); repeat split.
Qed.

(** One whole test with its events. *)
Lemma run_test_spec (tbf : TestResult -> exc_info -> TestCase -> string)
    (self : XMLTestResult) (t : TestCase * list event) :
  between_tests self = true ->
  forallb reportable t.2 = true ->
  exists self' new,
    run_test tbf t self = (self', Ok tt)
    /\ between_tests self' = true
    /\ open_suite self' = Some (strclass t.1)
    /\ calls self' = calls self ++ new
    /\ (forall n, count_calls (is_increment n) new
                  = (if String.eqb n "tests" then 1 else 0)
                    + count_events n t.2)
    /\ count_calls (is_begin "testcase") new = 1
    /\ count_calls (is_begin "testsuite") new
       = suite_changes (open_suite self) [t.1]
    /\ count_calls is_end new = 1 + suite_closes (open_suite self) [t.1]
    /\ (forall n, root_counter self' n
                  = root_counter self n
                    + (if String.eqb n "tests" then 1 else 0)
                    + count_events n t.2).
Proof.
  destruct t as [test evs]. cbn [fst snd]. intros H Hall.
  pose proof (fun n => startTest_root_counter self test n H) as R1.
  destruct (startTest_spec self test H)
    as (s1 & tc & suite & root & E1 & C1 & I1 & _ & _ & S1 & _ & _ & K1).
  rewrite E1 in R1. cbn [fst] in R1.
  destruct (reports_spec tbf test evs s1 I1 Hall)
    as (s2 & new2 & E2 & I2 & L2 & C2 & N2 & B2 & D2 & R2).
  destruct (in_test_stack s1 I1) as (tc1 & su1 & ro1 & S1' & L1).
  rewrite S1 in S1'. injection S1' as <- <- <-.
  destruct (in_test_stack s2 I2) as (tc2 & su2 & ro2 & S2 & L2').
  destruct (stopTest_spec s2 test I2)
    as (tc3 & su3 & ro3 & out & err & s3 & S3 & _ & _ & E3 & C3 & I3 & _ & _
        & P3 & (tc' & su' & ro' & S4 & _ & _ & _ & _ & _ & _ & _ & Hro)).
  rewrite S2 in S3. injection S3 as <- <- <-.
  destruct (expected_start_calls_counts self test) as (Na & Ba & Sa & Da).
  destruct (output_call_counts "system-out" out) as (No & Bo & Do).
  destruct (output_call_counts "system-err" err) as (Ne & Be & De).
  exists s3, (expected_start_calls self test ++ new2
              ++ output_call "system-out" out
              ++ output_call "system-err" err
              ++ [IncrementCounter "tests"; EndContext]).
  unfold run_test, mbind, M_bind. cbn [fst snd]. rewrite E1, E2, E3.
  split; [reflexivity|]. split; [assumption|].
  split; [rewrite P3; congruence|].
  split; [rewrite C3, C2, C1, <- !app_assoc; reflexivity|].
  split; [|split; [|split; [|split]]].
  - intros n. rewrite !count_calls_app, Na, N2, No, Ne.
    cbn [count_calls is_increment].
    destruct (String.eqb n "tests"); lia.
  - rewrite !count_calls_app, Ba, B2, Bo, Be. reflexivity.
  - rewrite !count_calls_app, Sa, B2, Bo, Be. cbn. lia.
  - rewrite !count_calls_app, Da, D2, Do, De. cbn. lia.
  - intros n. unfold root_counter at 1. rewrite S4. cbn [last].
    rewrite (Hro n).
    assert (counter (ctx_counters ro2) n = root_counter s2 n) as ->
      by (unfold root_counter; rewrite S2; reflexivity).
    rewrite R2, R1. lia.
Qed.

Lemma last_key_cons (open : option string) (t : TestCase)
    (ts : list TestCase) :
  last_key open (t :: ts) = last_key (Some (strclass t)) ts.
Proof.
  unfold last_key. destruct ts as [|t' ts]; [reflexivity|].
  change (last (t :: t' :: ts)) with (last (t' :: ts)).
  destruct (last (t' :: ts)) eqn:E; [reflexivity|].
  apply last_None in E. discriminate.
Qed.

(** All the tests of a run, one after the other. *)
Lemma run_tests_spec (tbf : TestResult -> exc_info -> TestCase -> string)
    (ts : list (TestCase * list event)) :
  forall self,
    between_tests self = true ->
    all_reportable ts = true ->
    exists self' new,
      run_tests tbf ts self = (self', Ok tt)
      /\ between_tests self' = true
      /\ open_suite self' = last_key (open_suite self) (map fst ts)
      /\ calls self' = calls self ++ new
      /\ (forall n, count_calls (is_increment n) new = run_total n ts)
      /\ count_calls (is_begin "testcase") new = length ts
      /\ count_calls (is_begin "testsuite") new
         = suite_changes (open_suite self) (map fst ts)
      /\ count_calls is_end new
         = length ts + suite_closes (open_suite self) (map fst ts)
      /\ (forall n, root_counter self' n
                    = root_counter self n + run_total n ts).
Proof.
  induction ts as [|t ts IH]; intros self H Hall.
  - exists self, []. split; [reflexivity|]. split; [assumption|].
    split; [reflexivity|]. split; [symmetry; apply app_nil_r|].
    repeat split; intros; cbn [run_total]; lia.
  - unfold all_reportable in Hall. cbn [forallb] in Hall.
    apply andb_prop in Hall as [Ht Hall].
    destruct (run_test_spec tbf self t H Ht)
      as (s1 & new1 & E1 & I1 & P1 & C1 & N1 & B1 & S1 & D1 & R1).
    destruct (IH s1 I1 Hall)
      as (s2 & new2 & E2 & I2 & P2 & C2 & N2 & B2 & S2 & D2 & R2).
    exists s2, (new1 ++ new2). cbn [run_tests]. unfold mbind, M_bind.
    rewrite E1, E2. split; [reflexivity|]. split; [assumption|].
    cbn [map]. rewrite last_key_cons, <- P1.
    split; [assumption|]. split; [rewrite C2, C1; now rewrite app_assoc|].
    rewrite P1 in S2, D2. cbn [suite_changes suite_closes] in S1, D1 |- *.
    split; [|split; [|split; [|split]]].
    + intros n. rewrite count_calls_app, N1, N2. cbn [run_total]. lia.
    + rewrite count_calls_app, B1, B2. cbn [length]. lia.
    + rewrite count_calls_app, S1, S2. lia.
    + rewrite count_calls_app, D1, D2. cbn [length]. lia.
    + intros n. rewrite R2, R1. cbn [run_total]. lia.
Qed.

Lemma suite_closes_open (key : string) (ts : list TestCase) :
  suite_closes (Some key) ts = suite_changes (Some key) ts.
Proof.
  revert key. induction ts as [|t ts IH]; intros key; [reflexivity|].
  cbn [suite_closes suite_changes]. now rewrite IH.
Qed.

Lemma suite_changes_same (key : string) (ts : list TestCase) :
  Forall (fun t => strclass t = key) ts ->
  suite_changes (Some key) ts = 0.
Proof.
  induction 1 as [|t ts Ht _ IH]; [reflexivity|].
  cbn [suite_changes]. rewrite Ht, String.eqb_refl, IH. reflexivity.
Qed.

(** X1. From a state between two tests, a run of any tests whose events can
    all be reported goes through without an exception and ends between two
    tests; the suite then open is that of the class of the last test. *)
Theorem run_goes_through_and_leaves_last_suite_open
    (tbf : TestResult -> exc_info -> TestCase -> string)
    (ts : list (TestCase * list event)) (self : XMLTestResult) :
  between_tests self = true ->
  all_reportable ts = true ->
  exists self',
    run_tests tbf ts self = (self', Ok tt)
    /\ between_tests self' = true
    /\ open_suite self' = last_key (open_suite self) (map fst ts).
Proof.
  intros H Hall.
  destruct (run_tests_spec tbf ts self H Hall)
    as (self' & new & E & I & P & _).
  exists self'. auto.
Qed.

Lemma run_goes_through_and_leaves_last_suite_open_witness :
  between_tests started = true
  /\ all_reportable interleaved = true
  /\ open_suite (run_tests traceback_text interleaved started).1
     = Some "pkg.Foo".
Proof.
  split; [reflexivity|]. split; [reflexivity|].
  destruct (run_goes_through_and_leaves_last_suite_open traceback_text
              interleaved started eq_refl eq_refl) as (self' & E & _ & P).
  rewrite E. exact P.
Defined.

(** X2. Over such a run the listener calls [increment_counter] once per
    test for [tests], once per skip for [skipped], once per error for
    [errors] and once per failure or unexpected success for [failures], and
    for no other name. *)
Theorem run_increments_match_events
    (tbf : TestResult -> exc_info -> TestCase -> string)
    (ts : list (TestCase * list event)) (self : XMLTestResult) :
  between_tests self = true ->
  all_reportable ts = true ->
  exists new,
    calls (run_tests tbf ts self).1 = calls self ++ new
    /\ forall n, count_calls (is_increment n) new = run_total n ts.
Proof.
  intros H Hall.
  destruct (run_tests_spec tbf ts self H Hall)
    as (self' & new & E & _ & _ & C & N & _).
  exists new. rewrite E. auto.
Qed.

Lemma run_increments_match_events_witness :
  between_tests started = true
  /\ all_reportable interleaved = true
  /\ count_calls (is_increment "failures")
       (calls (run_tests traceback_text interleaved started).1) = 1.
Proof.
  split; [reflexivity|]. split; [reflexivity|].
  destruct (run_increments_match_events traceback_text interleaved started
              eq_refl eq_refl) as (new & C & N).
  rewrite C, count_calls_app, N. reflexivity.
Defined.

(** X3. Over such a run each counter of the root context grows by the
    number of events that count for it ([tests]: one per test), whatever
    suites were opened and closed in between. *)
Theorem run_root_counters_are_totals
    (tbf : TestResult -> exc_info -> TestCase -> string)
    (ts : list (TestCase * list event)) (self : XMLTestResult) :
  between_tests self = true ->
  all_reportable ts = true ->
  forall n,
    root_counter (run_tests tbf ts self).1 n
    = root_counter self n + run_total n ts.
Proof.
  intros H Hall.
  destruct (run_tests_spec tbf ts self H Hall)
    as (self' & new & E & _ & _ & _ & _ & _ & _ & _ & R).
  rewrite E. exact R.
Qed.

Lemma run_root_counters_are_totals_witness :
  between_tests started = true
  /\ all_reportable interleaved = true
  /\ root_counter (run_tests traceback_text interleaved started).1 "tests"
     = 3.
Proof.
  split; [reflexivity|]. split; [reflexivity|].
  rewrite (run_root_counters_are_totals traceback_text interleaved started
             eq_refl eq_refl).
  reflexivity.
Defined.

(** X4. Over a run of at least one test that starts with no suite open,
    every testcase context is closed and every testsuite context but the
    last: the contexts opened are one more than the contexts closed. *)
Theorem run_closes_all_but_last_suite
    (tbf : TestResult -> exc_info -> TestCase -> string)
    (ts : list (TestCase * list event)) (self : XMLTestResult) :
  between_tests self = true ->
  all_reportable ts = true ->
  open_suite self = None ->
  ts <> [] ->
  exists new,
    calls (run_tests tbf ts self).1 = calls self ++ new
    /\ count_calls (is_begin "testcase") new = length ts
    /\ count_calls (is_begin "testsuite") new
       + count_calls (is_begin "testcase") new
       = count_calls is_end new + 1.
Proof.
  intros H Hall Hopen Hne.
  destruct (run_tests_spec tbf ts self H Hall)
    as (self' & new & E & _ & _ & C & _ & B & S & D & _).
  exists new. rewrite E. split; [assumption|]. split; [assumption|].
  rewrite B, S, D, Hopen.
  destruct ts as [|t ts]; [congruence|].
  cbn [map suite_changes suite_closes]. rewrite suite_closes_open. lia.
Qed.

Lemma run_closes_all_but_last_suite_witness :
  between_tests started = true
  /\ all_reportable interleaved = true
  /\ open_suite started = None
  /\ interleaved <> []
  /\ exists new,
       calls (run_tests traceback_text interleaved started).1
       = calls started ++ new
       /\ count_calls (is_begin "testcase") new = 3.
Proof.
  split; [reflexivity|]. split; [reflexivity|]. split; [reflexivity|].
  split; [discriminate|].
  destruct (run_closes_all_but_last_suite traceback_text interleaved
              started eq_refl eq_refl eq_refl ltac:(discriminate))
    as (new & C & B & _).
  exists new. split; [exact C | exact B].
Defined.

(** X5. When all the tests of such a run are of one class, a single
    testsuite context is opened. *)
Theorem run_of_one_class_opens_one_suite
    (tbf : TestResult -> exc_info -> TestCase -> string)
    (ts : list (TestCase * list event)) (self : XMLTestResult)
    (key : string) :
  between_tests self = true ->
  all_reportable ts = true ->
  open_suite self = None ->
  ts <> [] ->
  Forall (fun t => strclass t.1 = key) ts ->
  exists new,
    calls (run_tests tbf ts self).1 = calls self ++ new
    /\ count_calls (is_begin "testsuite") new = 1
    /\ count_calls is_end new = length ts.
Proof.
  intros H Hall Hopen Hne Hsame.
  destruct (run_tests_spec tbf ts self H Hall)
    as (self' & new & E & _ & _ & C & _ & _ & S & D & _).
  exists new. rewrite E. split; [assumption|].
  rewrite S, D, Hopen.
  destruct ts as [|t ts]; [congruence|].
  apply Forall_cons in Hsame as [Ht Hsame].
  cbn [map suite_changes suite_closes].
  rewrite suite_closes_open, Ht, suite_changes_same.
  - split; lia.
  - apply Forall_map. exact Hsame.
Qed.

Lemma run_of_one_class_opens_one_suite_witness :
  between_tests started = true
  /\ exists new,
       calls (run_tests traceback_text
                [(test_a, []); (test_b, [Skip "no"])] started).1
       = calls started ++ new
       /\ count_calls (is_begin "testsuite") new = 1.
Proof.
  split; [reflexivity|].
  destruct (run_of_one_class_opens_one_suite traceback_text
              [(test_a, []); (test_b, [Skip "no"])] started "pkg.Foo"
              eq_refl eq_refl eq_refl ltac:(discriminate)
              ltac:(repeat constructor))
    as (new & C & S & _).
  exists new. split; [exact C | exact S].
Defined.

(** X6. A class that comes back after a test of another class gets a
    testsuite context of its own: three tests of classes A, B, A open three
    testsuite contexts, the first and the last under the same name, and the
    listener closes the first two. *)
Theorem class_coming_back_opens_new_suite
    (tbf : TestResult -> exc_info -> TestCase -> string)
    (t1 t2 t3 : TestCase * list event) (self : XMLTestResult) :
  between_tests self = true ->
  all_reportable [t1; t2; t3] = true ->
  open_suite self = None ->
  strclass t3.1 = strclass t1.1 ->
  strclass t2.1 <> strclass t1.1 ->
  exists new,
    calls (run_tests tbf [t1; t2; t3] self).1 = calls self ++ new
    /\ count_calls (is_begin "testsuite") new = 3
    /\ count_calls is_end new = 3 + 2.
Proof.
  intros H Hall Hopen H31 H21.
  destruct (run_tests_spec tbf [t1; t2; t3] self H Hall)
    as (self' & new & E & _ & _ & C & _ & _ & S & D & _).
  exists new. rewrite E. split; [assumption|].
  rewrite S, D, Hopen. cbn [map suite_changes suite_closes length].
  rewrite H31.
  destruct (String.eqb_spec (strclass t1.1) (strclass t2.1)) as [Heq|_];
    [congruence|].
  destruct (String.eqb_spec (strclass t2.1) (strclass t1.1)) as [Heq|_];
    [congruence|].
  split; reflexivity.
Qed.

Lemma class_coming_back_opens_new_suite_witness :
  between_tests started = true
  /\ exists new,
       calls (run_tests traceback_text interleaved started).1
       = calls started ++ new
       /\ count_calls (is_begin "testsuite") new = 3.
Proof.
  split; [reflexivity|].
  destruct (class_coming_back_opens_new_suite traceback_text
              (test_a, [Write (Out "a")]) (test_c, [Skip "later"])
              (test_b, [Failure boom; Write (Err "b")]) started
              eq_refl eq_refl eq_refl eq_refl ltac:(discriminate))
    as (new & C & S & _).
  exists new. split; [exact C | exact S].
Defined.

(** X7. While a test is running, the report of a skip, of an error or a
    failure whose message is not empty, of an unexpected success, or a
    write to a standard stream, succeeds and leaves the test running under
    the same suite: it opens no context, closes none, and calls
    [increment_counter] for the counter of the event only. *)
Theorem report_keeps_test_running
    (tbf : TestResult -> exc_info -> TestCase -> string)
    (self : XMLTestResult) (test : TestCase) (ev : event) :
  in_test self = true ->
  reportable ev = true ->
  exists self' new,
    report tbf test ev self = (self', Ok tt)
    /\ in_test self' = true
    /\ _last_suite self' = _last_suite self
    /\ calls self' = calls self ++ new
    /\ (forall tag, count_calls (is_begin tag) new = 0)
    /\ count_calls is_end new = 0
    /\ (forall n, count_calls (is_increment n) new
                  = if counts_for n ev then 1 else 0).
Proof.
  intros H Hev.
  destruct (report_spec tbf self test ev H Hev)
    as (self' & new & E & I & L & C & N & B & D & _).
  exists self', new. auto 10.
Qed.

Lemma report_keeps_test_running_witness :
  in_test running = true
  /\ reportable (Error boom) = true
  /\ in_test (report traceback_text test_a (Error boom) running).1 = true.
Proof.
  split; [reflexivity|]. split; [reflexivity|].
  destruct (report_keeps_test_running traceback_text running test_a
              (Error boom) eq_refl eq_refl) as (self' & new & E & I & _).
  rewrite E. exact I.
Defined.

(** X8. A test stop for which a capture buffer is missing, as it is when no
    test has started yet, raises [AttributeError] before anything is done:
    the listener is unchanged and no call is made on the builder. *)
Theorem stopTest_without_buffers_raises (self : XMLTestResult)
    (test : TestCase) :
  _stdout_buffer (base self) = None \/ _stderr_buffer (base self) = None ->
  stopTest test self = (self, Raise AttributeError).
Proof.
  intros H. unfold stopTest, mbind, M_bind, getvalue.
  destruct (_stdout_buffer (base self)) as [out|];
    destruct (_stderr_buffer (base self)) as [err|];
    try reflexivity.
  destruct H; discriminate.
Qed.

Lemma stopTest_without_buffers_raises_witness :
  _stdout_buffer (base started) = None
  /\ stopTest test_a started = (started, Raise AttributeError).
Proof.
  split; [reflexivity|].
  apply (stopTest_without_buffers_raises started test_a).
  left. reflexivity.
Defined.

(** *** Templates of the suffix *)

(** Inside a replacement field, text without braces is read up to the
    closing brace. *)
Lemma format_field (mode : numbering) (args : list string)
    (field post : string) :
  forall acc,
    brace_free field = true ->
    format_go mode (Some acc) args (field +:+ String "}" post)
    = match resolve_field mode (acc +:+ field) args with
      | Ok (v, mode') =>
          match format_go mode' None args post with
          | Ok r => Ok (v +:+ r)
          | Raise e => Raise e
          end
      | Raise e => Raise e
      end.
Proof.
  induction field as [|c field IH]; intros acc Hfree.
  - rewrite str_append_nil_r. reflexivity.
  - cbn [brace_free] in Hfree. apply andb_prop in Hfree as [Hc Hfree].
    unfold not_brace in Hc. apply andb_prop in Hc as [Ho Hcl].
    apply negb_true_iff in Ho, Hcl.
    change (String c field +:+ String "}" post)
      with (String c (field +:+ String "}" post)).
    cbn [format_go]. rewrite Ho, Hcl, (IH _ Hfree).
    rewrite str_append_assoc. reflexivity.
Qed.

Lemma format_open_field (mode : numbering) (args : list string)
    (f : ascii) (rest : string) :
  Ascii.eqb f "{" = false ->
  format_go mode None args (String "{" (String f rest))
  = format_go mode (Some "") args (String f rest).
Proof.
  intros H.
  change (format_go mode None args (String "{" (String f rest)))
    with (if Ascii.eqb f "{"
          then match format_go mode None args rest with
               | Ok r => Ok (String "{" r)
               | Raise e => Raise e
               end
          else format_go mode (Some "") args (String f rest)).
  now rewrite H.
Qed.

(** Text without braces, then one replacement field. *)
Lemma format_text_then_field (args : list string) (pre field post : string) :
  brace_free pre = true ->
  brace_free field = true ->
  str_format (pre +:+ String "{" (field +:+ String "}" post)) args
  = match resolve_field Unnumbered field args with
    | Ok (v, mode') =>
        match format_go mode' None args post with
        | Ok r => Ok (pre +:+ v +:+ r)
        | Raise e => Raise e
        end
    | Raise e => Raise e
    end.
Proof.
  intros Hpre Hfield. unfold str_format.
  induction pre as [|c pre IH].
  - change ("" +:+ String "{" (field +:+ String "}" post))
      with (String "{" (field +:+ String "}" post)).
    destruct field as [|f field].
    + reflexivity.
    + pose proof Hfield as Hfull.
      cbn [brace_free] in Hfield. apply andb_prop in Hfield as [Hf _].
      unfold not_brace in Hf.
      apply andb_prop in Hf as [Ho _]. apply negb_true_iff in Ho.
      change (String f field +:+ String "}" post)
        with (String f (field +:+ String "}" post)).
      rewrite format_open_field by exact Ho.
      change (String f (field +:+ String "}" post))
        with (String f field +:+ String "}" post).
      rewrite format_field by exact Hfull.
      change ("" +:+ String f field) with (String f field).
      destruct (resolve_field _ _ _) as [[v mode']|e]; [|reflexivity].
      destruct (format_go mode' None args post); reflexivity.
  - cbn [brace_free] in Hpre. apply andb_prop in Hpre as [Hc Hpre].
    unfold not_brace in Hc. apply andb_prop in Hc as [Ho Hcl].
    apply negb_true_iff in Ho, Hcl.
    change (String c pre +:+ String "{" (field +:+ String "}" post))
      with (String c (pre +:+ String "{" (field +:+ String "}" post))).
    cbn [format_go]. rewrite Ho, Hcl, (IH Hpre).
    destruct (resolve_field _ _ _) as [[v mode']|e]; [|reflexivity].
    destruct (format_go mode' None args post); reflexivity.
Qed.

Lemma template_with_text_truthy (pre : string) (c : ascii) (rest : string) :
  truthy (pre +:+ String c rest) = true.
Proof. destruct pre; reflexivity. Qed.



(** X9. A template without any brace is taken as it is: the suffix is the
    template, the timestamp is not part of it, and so the name of the
    report does not depend on when the listener is constructed. *)
Theorem template_without_placeholder_is_the_suffix
    (now : struct_time) (stream : option nat) (descriptions : option bool)
    (verbosity : option nat) (od : target) (template : string) :
  brace_free template = true ->
  template <> "" ->
  exists self,
    __init__ now stream descriptions verbosity od (Some template) = Ok self
    /\ out_suffix self = template
    /\ forall dir separator,
         str_format "{0}{1}TESTS-TestSuites-{3}.xml"
                    [dir; separator; "suite"; out_suffix self]
         = Ok (dir +:+ separator +:+ "TESTS-TestSuites-" +:+ template
                   +:+ ".xml").
Proof.
  intros Hfree Hne. unfold __init__. cbn [truthy_opt default].
  assert (truthy template = true) as ->
    by (destruct template; [congruence | reflexivity]).
  unfold str_format. rewrite (format_brace_free _ _ _ Hfree).
  eexists. split; [reflexivity|]. split; [reflexivity|].
  intros dir separator.
  exact (report_filename dir separator "suite" template).
Qed.

Lemma template_without_placeholder_is_the_suffix_witness :
  brace_free "nightly" = true /\ "nightly" <> ""
  /\ exists self,
       __init__ clock None None None (Directory "out") (Some "nightly")
       = Ok self
       /\ out_suffix self = "nightly".
Proof.
  split; [reflexivity|]. split; [discriminate|].
  destruct (template_without_placeholder_is_the_suffix clock None None None
              (Directory "out") "nightly" eq_refl ltac:(discriminate))
    as (self & E & S & _).
  exists self. split; [exact E | exact S].
Defined.

(** X10. The automatic placeholder works like the numbered one: in a
    template made of text without braces around one [{}], the placeholder
    is replaced by the timestamp. *)
Theorem automatic_placeholder_holds_timestamp
    (now : struct_time) (stream : option nat) (descriptions : option bool)
    (verbosity : option nat) (od : target) (pre post : string) :
  brace_free pre = true ->
  brace_free post = true ->
  exists self,
    __init__ now stream descriptions verbosity od
             (Some (pre +:+ "{}" +:+ post)) = Ok self
    /\ out_suffix self = pre +:+ _timestamp now +:+ post.
Proof.
  intros Hpre Hpost. unfold __init__. cbn [truthy_opt default].
  change (pre +:+ "{}" +:+ post)
    with (pre +:+ String "{" ("" +:+ String "}" post)).
  rewrite template_with_text_truthy.
  rewrite (format_text_then_field _ pre "" post Hpre eq_refl).
  change (resolve_field Unnumbered "" [_timestamp now])
    with (Ok (_timestamp now, Automatic 1) : result (string * numbering)).
  cbn iota. rewrite (format_brace_free _ _ _ Hpost).
  eexists. split; reflexivity.
Qed.

Lemma automatic_placeholder_holds_timestamp_witness :
  brace_free "run-" = true /\ brace_free "-ci" = true
  /\ exists self,
       __init__ clock None None None (Directory "out") (Some "run-{}-ci")
       = Ok self
       /\ out_suffix self = "run-20261103T090507-ci".
Proof.
  split; [reflexivity|]. split; [reflexivity|].
  destruct (automatic_placeholder_holds_timestamp clock None None None
              (Directory "out") "run-" "-ci" eq_refl eq_refl)
    as (self & E & S).
  exists self. split; [exact E | exact S].
Defined.



(** *** Timestamps of distinct times *)

Lemma append_inj_length (a1 a2 b1 b2 : string) :
  String.length a1 = String.length a2 ->
  a1 +:+ b1 = a2 +:+ b2 -> a1 = a2 /\ b1 = b2.
Proof.
  revert a2. induction a1 as [|x a1 IH]; intros [|y a2] Hlen E;
    try discriminate Hlen.
  - split; [reflexivity | exact E].
  - rewrite !str_append_cons in E. injection E as -> E.
    injection Hlen as Hlen. destruct (IH a2 Hlen E) as [-> ->].
    split; reflexivity.
Qed.

Lemma decimal_inj (a b : nat) : decimal a = decimal b -> a = b.
Proof.
  unfold decimal. intros E. apply Unsigned.to_uint_inj.
  pose proof (NilEmpty.usu (Nat.to_uint a)) as Ha.
  pose proof (NilEmpty.usu (Nat.to_uint b)) as Hb.
  rewrite E in Ha. congruence.
Qed.

Lemma pad2_inj (a b : nat) : a < 100 -> b < 100 -> pad2 a = pad2 b -> a = b.
Proof.
  intros Ha Hb E.
  assert (A : forallb (fun x =>
                forallb (fun y => negb (String.eqb (pad2 x) (pad2 y))
                                  || Nat.eqb x y) (seq 0 100))
                (seq 0 100) = true) by (vm_compute; reflexivity).
  rewrite forallb_forall in A.
  assert (Ia : In a (seq 0 100)) by (apply in_seq; lia).
  assert (Ib : In b (seq 0 100)) by (apply in_seq; lia).
  specialize (A a Ia). rewrite forallb_forall in A. specialize (A b Ib).
  rewrite E, String.eqb_refl in A. now apply Nat.eqb_eq in A.
Qed.

Lemma four_digit_year_inv (t : struct_time) :
  four_digit_year t = true ->
  (1000 <= tm_year t < 10 * 1000)
  /\ tm_mon t < 100 /\ tm_mday t < 100 /\ tm_hour t < 100
  /\ tm_min t < 100 /\ tm_sec t < 100.
Proof.
  unfold four_digit_year. intros H.
  repeat (apply andb_prop in H; destruct H as [H ?]).
  repeat match goal with
         | E : Nat.ltb _ _ = true |- _ => apply Nat.ltb_lt in E
         | E : Nat.leb _ _ = true |- _ => apply Nat.leb_le in E
         end.
  lia.
Qed.

(** X12. Two times of four-digit years that differ in any field, down to
    the second, have different timestamps; with the default suffix, two
    listeners constructed at different seconds therefore write reports of
    different names. *)
Theorem timestamps_of_distinct_times_differ (t1 t2 : struct_time) :
  four_digit_year t1 = true ->
  four_digit_year t2 = true ->
  _timestamp t1 = _timestamp t2 ->
  t1 = t2.
Proof.
  intros H1 H2 E.
  apply four_digit_year_inv in H1 as (Hy1 & Hm1 & Hd1 & HH1 & HM1 & HS1).
  apply four_digit_year_inv in H2 as (Hy2 & Hm2 & Hd2 & HH2 & HM2 & HS2).
  rewrite !timestamp_layout in E.
  apply append_inj_length in E as [Ey E];
    [|now rewrite !year_length].
  apply append_inj_length in E as [Em E];
    [|now rewrite !pad2_length].
  apply append_inj_length in E as [Ed E];
    [|now rewrite !pad2_length].
  apply append_inj_length in E as [_ E]; [|reflexivity].
  apply append_inj_length in E as [EH E];
    [|now rewrite !pad2_length].
  apply append_inj_length in E as [EM ES];
    [|now rewrite !pad2_length].
  apply decimal_inj in Ey.
  apply pad2_inj in Em, Ed, EH, EM, ES; try assumption.
  destruct t1, t2. cbn in *. congruence.
Qed.

Lemma timestamps_of_distinct_times_differ_witness :
  four_digit_year clock = true
  /\ _timestamp clock = _timestamp (mkTime 2026 11 3 9 5 7)
  /\ clock = mkTime 2026 11 3 9 5 7.
Proof.
  split; [reflexivity|]. split; [reflexivity|].
  apply (timestamps_of_distinct_times_differ clock
           (mkTime 2026 11 3 9 5 7) eq_refl eq_refl eq_refl).
Defined.

(** *** The message of an error *)

Lemma single_line_append_char (line : string) (c : ascii) :
  single_line line = true -> is_linebreak c = false ->
  single_line (line +:+ String c "") = true.
Proof.
  intros Hline Hc. induction line as [|x line IH].
  - change ("" +:+ String c "") with (String c "").
    cbn [single_line]. now rewrite Hc.
  - rewrite str_append_cons. cbn [single_line] in Hline |- *.
    apply andb_prop in Hline as [-> Hline]. now rewrite IH.
Qed.

(** The first line is what comes before the first line boundary: it is the
    beginning of the text and has no boundary inside. *)
Lemma splitlines_go_first (s : string) :
  forall line first others,
    single_line line = true ->
    splitlines_go false line s = first :: others ->
    single_line first = true /\ exists tail, line +:+ s = first +:+ tail.
Proof.
  induction s as [|c s IH]; intros line first others Hline E.
  - cbn [splitlines_go] in E. destruct (truthy line); [|discriminate].
    injection E as <- _. split; [assumption|]. now exists "".
  - cbn [splitlines_go andb] in E.
    destruct (is_linebreak c) eqn:Hc.
    + injection E as <- _. split; [assumption|]. now exists (String c s).
    + destruct (IH _ _ _ (single_line_append_char _ _ Hline Hc) E)
        as (Hfirst & tail & Etail).
      split; [assumption|]. exists tail.
      rewrite <- Etail, str_append_assoc. reflexivity.
Qed.

(** X13. Whenever [_append_error_data] succeeds for an exception, the
    [message] attribute it passes to the builder is the beginning of the
    string representation of the exception, up to its first line boundary:
    it contains no line boundary, so the attribute holds one line whatever
    the exception says. *)
Theorem message_is_the_first_line_only
    (tbf : TestResult -> exc_info -> TestCase -> string)
    (self self' : XMLTestResult) (test : TestCase) (tag : string)
    (e : exc_info) :
  _append_error_data tbf test tag (Some e) self = (self', Ok tt) ->
  exists message tail,
    calls self'
    = calls self ++ [Append tag (Some (tbf (base self) e test))
                            [("message", message);
                             ("type", exctype_name e)]]
    /\ value_str e = message +:+ tail
    /\ single_line message = true.
Proof.
  intros E.
  destruct (splitlines (value_str e)) as [|line more] eqn:Hlines.
  - unfold _append_error_data, mbind, M_bind, lift in E.
    rewrite Hlines in E. discriminate E.
  - rewrite (append_error_data_with_line _ _ _ _ _ _ _ Hlines) in E.
    unfold invoke in E.
    destruct (perform _ _) as [b|x]; [|discriminate E].
    injection E as <-. cbn [calls].
    destruct (splitlines_go_first (value_str e) "" line more eq_refl Hlines)
      as (Hsingle & tail & Etail).
    exists line, tail. auto.
Qed.

Lemma message_is_the_first_line_only_witness :
  (_append_error_data traceback_text test_a "error" (Some boom) running).2
  = Ok tt
  /\ exists message tail,
       value_str boom = message +:+ tail /\ single_line message = true.
Proof.
  split; [reflexivity|].
  destruct (message_is_the_first_line_only traceback_text running
              (_append_error_data traceback_text test_a "error" (Some boom)
                                  running).1
              test_a "error" boom eq_refl)
    as (message & tail & _ & E & S).
  exists message, tail. split; [exact E | exact S].
Defined.

(** *** The first test *)

(** X14. As long as no suite has been opened ([_last_suite] is [None]), a
    test start opens a testsuite context and then a testcase context on top
    of whatever is open, without closing anything and whatever tag the
    builder reports: also when the run was never started, in which case
    there is no root context below the suite. *)
Theorem first_test_always_opens_a_suite (self : XMLTestResult)
    (test : TestCase) :
  _last_suite self = None ->
  exists self',
    startTest test self = (self', Ok tt)
    /\ calls self'
       = calls self ++ [BeginContext "testsuite" (strclass test);
                        BeginContext "testcase" (description test)]
    /\ stack (_builder self')
       = mkContext "testcase" (description test) zero_counters []
         :: mkContext "testsuite" (strclass test) zero_counters []
         :: stack (_builder self)
    /\ _last_suite self' = Some (strclass test).
Proof.
  intros Hlast. destruct self as [b [st doc] cs ls od osx].
  cbn in Hlast. subst ls.
  unfold startTest, _start_new_suite, mbind, M_bind, super, get,
    set_last_suite, invoke, _test_class_name, _current_suite_finished.
  cbn [base _builder calls _last_suite out_dir out_suffix truthy_opt].
  rewrite bool_decide_eq_false_2 by discriminate.
  cbn [negb]. rewrite orb_true_r.
  cbn [base _builder calls _last_suite out_dir out_suffix].
  change (truthy_opt None) with false.
  cbn [base _builder calls _last_suite out_dir out_suffix perform
       begin_context document stack M_ret mret].
  rewrite get_description_spec, <- app_assoc.
  eexists. repeat split.
Qed.

Lemma first_test_always_opens_a_suite_witness :
  _last_suite fresh = None
  /\ stack (_builder fresh) = []
  /\ length (stack (_builder (startTest test_a fresh).1)) = 2.
Proof.
  split; [reflexivity|]. split; [reflexivity|].
  destruct (first_test_always_opens_a_suite fresh test_a eq_refl)
    as (self' & E & _ & S & _).
  rewrite E. cbn [fst]. rewrite S. reflexivity.
Defined.
